(** * A shallow embedding of the KYC record-keeping server (src/app.py)

    The server is a Flask application: eleven request handlers over three
    SQLAlchemy models ([User], [Document], [Face]) and one helper,
    [upload_to_supabase], that puts a file into an S3 bucket and builds its
    public URL.

    The embedding follows the source handler by handler.  Python values are
    a small inductive type, exceptions are values of [exn], and a handler is
    a computation in a state-and-exception monad over the database tables
    and the sequence of objects put into the bucket.  What lives outside the
    repository is a parameter of the development: the configuration strings
    [S3_ENDPOINT] and [S3_BUCKET], werkzeug's [secure_filename], and the way
    the database driver binds a Python value to a VARCHAR column.  What the
    database decides for itself is read from the environment of the request:
    whether the key drawn by a refused INSERT is given back. *)

From stdpp Require Import base option list gmap strings pretty.
From Stdlib Require Import ZArith Floats.PrimFloat.

Open Scope Z_scope.
Open Scope string_scope.

(** ** Python values *)

(** The values the handlers read from [request.json] and hand to [jsonify]:
    what [json.loads] produces, and [datetime] for the timestamp columns.
    A [dict] keeps its items in insertion order; [dict_lookup] returns the
    first item of a key (the items of a real dict have distinct keys). *)
#[warnings="-register-all"]
Inductive value : Type :=
| VNone
| VBool (b : bool)
| VInt (z : Z)
| VFloat (f : float)
| VStr (s : string)
| VList (l : list value)
| VDict (d : list (string * value))
| VDateTime (t : Z).

(** Exceptions that escape a handler.  Flask answers an [HTTPException]
    with its own status code and every other exception with a 500. *)
Inductive exn : Type :=
| KeyError (k : string)
| TypeError
| AttributeError
| HTTPException (code : Z)
| S3UploadFailedError
| StatementError
| IntegrityError
| NoReferencedTableError.

Inductive result (A : Type) : Type :=
| Ok (a : A)
| Raise (e : exn).
Arguments Ok {A} a.
Arguments Raise {A} e.

(** First item stored under [k]: the lookup of a dict, and of a werkzeug
    [MultiDict] ([request.files], [request.form]). *)
Fixpoint dict_lookup {A : Type} (k : string) (d : list (string * A)) : option A :=
  match d with
  | [] => None
  | (k', v) :: d' => if String.eqb k k' then Some v else dict_lookup k d'
  end.

(** [sub in s] on two strings. *)
Fixpoint str_contains (sub s : string) : bool :=
  String.prefix sub s ||
  match s with
  | EmptyString => false
  | String _ s' => str_contains sub s'
  end.

(** [k in data] for a string [k]. *)
Definition contains (data : value) (k : string) : result bool :=
  match data with
  | VDict d => Ok (bool_decide (is_Some (dict_lookup k d)))
  | VStr s => Ok (str_contains k s)
  | VList l =>
      Ok (existsb (fun x => match x with VStr s => String.eqb s k | _ => false end) l)
  | VNone | VBool _ | VInt _ | VFloat _ | VDateTime _ => Raise TypeError
  end.

(** [data[k]] for a string [k]. *)
Definition getitem (data : value) (k : string) : result value :=
  match data with
  | VDict d =>
      match dict_lookup k d with
      | Some v => Ok v
      | None => Raise (KeyError k)
      end
  | _ => Raise TypeError
  end.

(** [data.get(k)]. *)
Definition dict_get (data : value) (k : string) : result value :=
  match data with
  | VDict d => Ok (default VNone (dict_lookup k d))
  | _ => Raise AttributeError
  end.

(** [s.replace(old, new)]: every occurrence of [old], found from the left
    and not overlapping, is replaced by [new].  [skip] counts the characters
    of the occurrence being replaced that are still to be dropped. *)
Fixpoint replace_from (old new : string) (skip : nat) (s : string) : string :=
  match s with
  | EmptyString => EmptyString
  | String c s' =>
      match skip with
      | S k => replace_from old new k s'
      | O =>
          if String.prefix old s
          then new +:+ replace_from old new (Nat.pred (String.length old)) s'
          else String c (replace_from old new O s')
      end
  end.

Fixpoint interleave (new s : string) : string :=
  match s with
  | EmptyString => new
  | String c s' => new +:+ String c (interleave new s')
  end.

Definition replace (s old new : string) : string :=
  match old with
  | EmptyString => interleave new s
  | _ => replace_from old new O s
  end.

(** ** Models *)

(** A row of each table.  The primary key [id] is the key of the table's
    map, not a field of the row.  VARCHAR and TEXT cells are strings,
    nullable ones are options. *)
Module User.
Record t : Type := mk {
  name : string;
  phone : string;
  aadhaar : option string;
  email : option string;
  address : option string;
  created_at : option Z;
  updated_at : option Z
}.
End User.

Module Document.
Record t : Type := mk {
  user_id : Z;
  doc_type : string;
  doc_url : string;
  status : option string;
  uploaded_at : option Z
}.
End Document.

Module Face.
Record t : Type := mk {
  user_id : Z;
  face_url : string;
  liveness_score : option float;
  match_score : option float;
  status : option string;
  created_at : option Z
}.
End Face.

(** An uploaded file of a multipart request. *)
Record FileStorage : Type := {
  filename : string;
  mimetype : string;
  stream : string
}.

(** One call of [s3.upload_fileobj] that went through. *)
Record s3_put : Type := {
  put_bucket : string;
  put_key : string;
  put_body : string;
  put_content_type : string
}.

(** The state the handlers act on: the three tables with the generators of
    their primary keys, and the puts the bucket received, latest first. *)
Record state : Type := {
  users : gmap Z User.t;
  users_seq : Z;
  documents : gmap Z Document.t;
  documents_seq : Z;
  faces : gmap Z Face.t;
  faces_seq : Z;
  bucket : list s3_put
}.

Definition init : state :=
  {| users := ∅; users_seq := 1;
     documents := ∅; documents_seq := 1;
     faces := ∅; faces_seq := 1;
     bucket := [] |}.

Definition set_users (f : gmap Z User.t → gmap Z User.t) (g : Z → Z) (s : state) : state :=
  {| users := f (users s); users_seq := g (users_seq s);
     documents := documents s; documents_seq := documents_seq s;
     faces := faces s; faces_seq := faces_seq s;
     bucket := bucket s |}.

Definition set_documents (f : gmap Z Document.t → gmap Z Document.t) (g : Z → Z) (s : state) : state :=
  {| users := users s; users_seq := users_seq s;
     documents := f (documents s); documents_seq := g (documents_seq s);
     faces := faces s; faces_seq := faces_seq s;
     bucket := bucket s |}.

Definition set_faces (f : gmap Z Face.t → gmap Z Face.t) (g : Z → Z) (s : state) : state :=
  {| users := users s; users_seq := users_seq s;
     documents := documents s; documents_seq := documents_seq s;
     faces := f (faces s); faces_seq := g (faces_seq s);
     bucket := bucket s |}.

Definition add_put (p : s3_put) (s : state) : state :=
  {| users := users s; users_seq := users_seq s;
     documents := documents s; documents_seq := documents_seq s;
     faces := faces s; faces_seq := faces_seq s;
     bucket := p :: bucket s |}.

(** What a request finds outside the process when it runs: the reading of
    the clock ([datetime.utcnow]), whether the object store answers, and
    whether the database gives back the primary key an INSERT drew when it
    refuses the INSERT (SQLite takes the next rowid again, a PostgreSQL
    sequence keeps its advance). *)
Record env : Type := {
  utcnow : Z;
  s3_up : bool;
  key_given_back : bool
}.

(** ** The monad of the handlers *)

Definition M (A : Type) : Type := state → result A * state.

Definition ret {A : Type} (a : A) : M A := fun s => (Ok a, s).

Definition raise {A : Type} (e : exn) : M A := fun s => (Raise e, s).

Definition bind {A B : Type} (m : M A) (f : A → M B) : M B :=
  fun s =>
    match m s with
    | (Ok a, s') => f a s'
    | (Raise e, s') => (Raise e, s')
    end.

Definition lift {A : Type} (r : result A) : M A := fun s => (r, s).

Definition gets {A : Type} (f : state → A) : M A := fun s => (Ok (f s), s).

Definition modify (f : state → state) : M unit := fun s => (Ok tt, f s).

(** An INSERT draws its primary key before the database checks the row.
    When the INSERT [m] is refused, the exception leaves with the key
    generator advanced by [draw] unless the database gives the key back. *)
Definition drawing_key {A : Type} (e : env) (draw : state → state) (m : M A) : M A :=
  fun s =>
    match m s with
    | (Ok a, s') => (Ok a, s')
    | (Raise ex, s') => (Raise ex, if key_given_back e then s' else draw s')
    end.

Notation "x <- m ;; k" := (bind m (fun x => k))
  (at level 100, m at next level, right associativity).
Notation "m ;;; k" := (bind m (fun _ => k))
  (at level 100, right associativity).

(** ** The request *)

(** [request.json] either parses to a value or makes werkzeug raise an
    [HTTPException] (400 for a malformed body, 415 for a body that is not
    JSON); the exception is raised where the handler reads the attribute. *)
Inductive body : Type :=
| Json (v : value)
| NotJson (code : Z).

Record request : Type := {
  json : body;
  files : list (string * FileStorage);
  form : list (string * string)
}.

Definition request_json (req : request) : M value :=
  match json req with
  | Json v => ret v
  | NotJson code => raise (HTTPException code)
  end.

(** [k in d] and [d[k]] on a [MultiDict]; a missing key raises werkzeug's
    [BadRequestKeyError], an [HTTPException] with status 400. *)
Definition multidict_contains {A : Type} (d : list (string * A)) (k : string) : bool :=
  bool_decide (is_Some (dict_lookup k d)).

Definition multidict_getitem {A : Type} (d : list (string * A)) (k : string) : M A :=
  match dict_lookup k d with
  | Some v => ret v
  | None => raise (HTTPException 400)
  end.

(** What [jsonify] receives for a nullable cell. *)
Definition str_or_none (c : option string) : value :=
  match c with Some s => VStr s | None => VNone end.

Definition datetime_or_none (c : option Z) : value :=
  match c with Some t => VDateTime t | None => VNone end.

Definition float_or_none (c : option float) : value :=
  match c with Some f => VFloat f | None => VNone end.

(** The dict a listing builds for one row: [d] and [f] of the two list
    comprehensions, with the row's primary key. *)
Definition document_json (kd : Z * Document.t) : value :=
  VDict [("id", VInt kd.1);
         ("doc_type", VStr (Document.doc_type kd.2));
         ("doc_url", VStr (Document.doc_url kd.2));
         ("status", str_or_none (Document.status kd.2));
         ("uploaded_at", datetime_or_none (Document.uploaded_at kd.2))].

Definition face_json (kf : Z * Face.t) : value :=
  VDict [("id", VInt kf.1);
         ("face_url", VStr (Face.face_url kf.2));
         ("liveness_score", float_or_none (Face.liveness_score kf.2));
         ("match_score", float_or_none (Face.match_score kf.2));
         ("status", str_or_none (Face.status kf.2));
         ("created_at", datetime_or_none (Face.created_at kf.2))].

(** [new == old] in Python, for a value assigned to an attribute whose
    loaded value is the cell [old]: the test by which the unit of work
    decides whether the attribute has a net change. *)
Definition same_value (new : value) (old : option string) : bool :=
  match new, old with
  | VNone, None => true
  | VStr s, Some s' => String.eqb s s'
  | _, _ => false
  end.

Definition changed (new : option value) (old : option string) : bool :=
  match new with
  | None => false
  | Some v => negb (same_value v old)
  end.

(** The tables of the metadata and the tables their foreign keys name.
    [User] declares no [__tablename__], so Flask-SQLAlchemy names its
    table [user] after the class; [Document] and [Face] declare
    [documents] and [faces], each with [user_id] as
    [db.ForeignKey('users.id')]. *)
Definition metadata_tables : list string := ["user"; "documents"; "faces"].

Definition foreign_key_targets (table : string) : list string :=
  if String.eqb table "documents" then ["users"]
  else if String.eqb table "faces" then ["users"]
  else [].

(** The first step of a flush that writes to [table]: the unit of work
    sorts the tables of the mapper by their foreign keys, and a key that
    names a table the metadata does not have raises
    [NoReferencedTableError] before any statement is sent. *)
Definition sort_tables (table : string) : M unit :=
  if forallb (fun target => bool_decide (target ∈ metadata_tables))
       (foreign_key_targets table)
  then ret tt
  else raise NoReferencedTableError.

(** The UNIQUE constraint of [User.aadhaar]: another row ([except] is the
    row being updated) holds the same non-NULL value.  NULLs never clash. *)
Definition aadhaar_taken (a : option string) (except : option Z) (us : gmap Z User.t) : bool :=
  match a with
  | None => false
  | Some a' =>
      bool_decide (map_Exists (fun j u => Some j ≠ except ∧ User.aadhaar u = Some a') us)
  end.

Section Server.

(** Configuration read from the environment at start-up. *)
Variable S3_ENDPOINT : string.
Variable S3_BUCKET : string.

(** [werkzeug.utils.secure_filename]. *)
Variable secure_filename : string → string.

(** How the driver and the database store a Python value in a
    VARCHAR([n]) column: [None] when the statement is refused,
    [Some None] for NULL, [Some (Some s)] for the text [s]. *)
Variable bind_text : nat → value → option (option string).

Definition bind_nullable (n : nat) (v : value) : M (option string) :=
  match bind_text n v with
  | None => raise StatementError
  | Some c => ret c
  end.

(** The same for a column declared [nullable=False]. *)
Definition bind_not_null (n : nat) (v : value) : M string :=
  match bind_text n v with
  | None => raise StatementError
  | Some None => raise IntegrityError
  | Some (Some s) => ret s
  end.

(** *** The persistence layer

    Each definition is one unit of work of the session: the statements
    that [db.session.commit()] flushes, which the database applies as a
    whole or not at all.  The units of work on [Document] and [Face]
    start with [sort_tables]; the table of [User] has no foreign key, so
    for its units of work that step cannot fail and is not written. *)

(** [User.query.get(id)]. *)
Definition User_query_get (id : Z) : M (option User.t) :=
  gets (fun s => users s !! id).

Definition Document_query_get (doc_id : Z) : M (option Document.t) :=
  gets (fun s => documents s !! doc_id).

Definition Face_query_get (face_id : Z) : M (option Face.t) :=
  gets (fun s => faces s !! face_id).

(** [db.session.add(User(name=.., phone=.., aadhaar=..)); db.session.commit()]:
    one INSERT; [created_at] takes its default, [updated_at] has none. *)
Definition add_User (e : env) (name phone aadhaar : value) : M Z :=
  drawing_key e (set_users (fun us => us) Z.succ)
    (name' <- bind_not_null 120 name ;;
     phone' <- bind_not_null 15 phone ;;
     aadhaar' <- bind_nullable 12 aadhaar ;;
     us <- gets users ;;
     id <- gets users_seq ;;
     if aadhaar_taken aadhaar' None us then raise IntegrityError
     else if bool_decide (is_Some (us !! id)) then raise IntegrityError
     else
       modify (set_users
                 (insert id (User.mk name' phone' aadhaar' None None (Some (utcnow e)) None))
                 Z.succ) ;;;
       ret id).

(** The commit of [update_user]: [phone], [name] and [aadhaar] are the
    values the handler assigned ([None]: attribute not assigned).  An
    UPDATE is emitted only when an assigned value differs from the
    loaded one; it sets the changed columns and, through [onupdate],
    [updated_at]. *)
Definition commit_User (e : env) (id : Z) (user : User.t)
    (phone name aadhaar : option value) : M unit :=
  let dirty_phone := changed phone (Some (User.phone user)) in
  let dirty_name := changed name (Some (User.name user)) in
  let dirty_aadhaar := changed aadhaar (User.aadhaar user) in
  if negb (dirty_phone || dirty_name || dirty_aadhaar) then ret tt
  else
    phone' <- (if dirty_phone then bind_not_null 15 (default VNone phone)
               else ret (User.phone user)) ;;
    name' <- (if dirty_name then bind_not_null 120 (default VNone name)
              else ret (User.name user)) ;;
    aadhaar' <- (if dirty_aadhaar then bind_nullable 12 (default VNone aadhaar)
                 else ret (User.aadhaar user)) ;;
    us <- gets users ;;
    if dirty_aadhaar && aadhaar_taken aadhaar' (Some id) us then raise IntegrityError
    else
      modify (set_users
                (insert id (User.mk name' phone' aadhaar'
                              (User.email user) (User.address user)
                              (User.created_at user) (Some (utcnow e))))
                (fun n => n)).

(** [db.session.delete(user); db.session.commit()]: one DELETE on the
    User table.  The models declare no relationship and no cascade, and
    the foreign keys of [Document] and [Face] name a table [users] that
    no model maps ([User] has no [__tablename__]), so nothing ties the
    rows of the other tables to the row deleted. *)
Definition delete_User (id : Z) : M unit :=
  modify (set_users (delete id) (fun n => n)).

(** [db.session.add(Document(user_id=.., doc_type=.., doc_url=..));
    db.session.commit()]: the flush sorts the tables of the mapper, then
    sends one INSERT with the defaults of [status] and [uploaded_at]. *)
Definition add_Document (e : env) (user_id : Z) (doc_type doc_url : string) : M Z :=
  sort_tables "documents" ;;;
  drawing_key e (set_documents (fun ds => ds) Z.succ)
    (doc_type' <- bind_not_null 20 (VStr doc_type) ;;
     doc_url' <- bind_not_null 255 (VStr doc_url) ;;
     ds <- gets documents ;;
     id <- gets documents_seq ;;
     if bool_decide (is_Some (ds !! id)) then raise IntegrityError
     else
       modify (set_documents
                 (insert id (Document.mk user_id doc_type' doc_url'
                               (Some "pending") (Some (utcnow e))))
                 Z.succ) ;;;
       ret id).

(** [db.session.delete(doc); db.session.commit()]. *)
Definition delete_Document (doc_id : Z) : M unit :=
  sort_tables "documents" ;;;
  modify (set_documents (delete doc_id) (fun n => n)).

Definition add_Face (e : env) (user_id : Z) (face_url : string) : M Z :=
  sort_tables "faces" ;;;
  drawing_key e (set_faces (fun fs => fs) Z.succ)
    (face_url' <- bind_not_null 255 (VStr face_url) ;;
     fs <- gets faces ;;
     id <- gets faces_seq ;;
     if bool_decide (is_Some (fs !! id)) then raise IntegrityError
     else
       modify (set_faces
                 (insert id (Face.mk user_id face_url' None None
                               (Some "pending") (Some (utcnow e))))
                 Z.succ) ;;;
       ret id).

Definition delete_Face (face_id : Z) : M unit :=
  sort_tables "faces" ;;;
  modify (set_faces (delete face_id) (fun n => n)).

(** [Document.query.filter_by(user_id=id).all()], rows with their keys.
    The order of the rows is the database's; the model lists them by key,
    and the properties of the listings do not depend on the order. *)
Definition Document_filter_by_user (id : Z) : M (list (Z * Document.t)) :=
  gets (fun s =>
    filter (fun kd => Document.user_id kd.2 = id) (map_to_list (documents s))).

Definition Face_filter_by_user (id : Z) : M (list (Z * Face.t)) :=
  gets (fun s =>
    filter (fun kf => Face.user_id kf.2 = id) (map_to_list (faces s))).

(** *** The object storage gateway *)

(** [s3.upload_fileobj(Fileobj=file, Bucket=.., Key=.., ExtraArgs=..)]. *)
Definition s3_upload_fileobj (e : env) (file : FileStorage)
    (bucket_name key content_type : string) : M unit :=
  if s3_up e then
    modify (add_put {| put_bucket := bucket_name; put_key := key;
                       put_body := stream file;
                       put_content_type := content_type |})
  else raise S3UploadFailedError.

Definition upload_to_supabase (e : env) (file : FileStorage) (path : string) : M string :=
  let filename := secure_filename (filename file) in
  let key := path +:+ "/" +:+ filename in
  s3_upload_fileobj e file S3_BUCKET key (mimetype file) ;;;
  ret (replace S3_ENDPOINT "/s3" "" +:+ "/object/public/" +:+ S3_BUCKET +:+ "/" +:+ key).

(** *** The request handlers

    A handler returns the value given to [jsonify] and the status code;
    [return jsonify(..)] without a code is a 200. *)

Definition home : M (value * Z) :=
  ret (VDict [("message", VStr "KYC API with Users, Documents & Faces ✅")], 200).

Definition create_user (e : env) (req : request) : M (value * Z) :=
  data <- request_json req ;;
  name <- lift (getitem data "name") ;;
  phone <- lift (getitem data "phone") ;;
  aadhaar <- lift (dict_get data "aadhaar") ;;
  user_id <- add_User e name phone aadhaar ;;
  ret (VDict [("status", VStr "success"); ("user_id", VInt user_id)], 201).

Definition get_user (id : Z) : M (value * Z) :=
  user <- User_query_get id ;;
  match user with
  | None => ret (VDict [("error", VStr "User not found")], 404)
  | Some user =>
      ret (VDict [("id", VInt id);
                  ("name", VStr (User.name user));
                  ("phone", VStr (User.phone user));
                  ("aadhaar", str_or_none (User.aadhaar user));
                  ("created_at", datetime_or_none (User.created_at user))], 200)
  end.

(** [if k in data: user.k = data[k]]: the value assigned, if any. *)
Definition assigned (data : value) (k : string) : M (option value) :=
  present <- lift (contains data k) ;;
  if (present : bool) then v <- lift (getitem data k) ;; ret (Some v)
  else ret None.

Definition update_user (e : env) (req : request) (id : Z) : M (value * Z) :=
  user <- User_query_get id ;;
  match user with
  | None => ret (VDict [("error", VStr "User not found")], 404)
  | Some user =>
      data <- request_json req ;;
      phone <- assigned data "phone" ;;
      name <- assigned data "name" ;;
      aadhaar <- assigned data "aadhaar" ;;
      commit_User e id user phone name aadhaar ;;;
      ret (VDict [("status", VStr "updated")], 200)
  end.

Definition delete_user (id : Z) : M (value * Z) :=
  user <- User_query_get id ;;
  match user with
  | None => ret (VDict [("error", VStr "User not found")], 404)
  | Some _ =>
      delete_User id ;;;
      ret (VDict [("status", VStr "deleted")], 200)
  end.

Definition upload_document (e : env) (req : request) (id : Z) : M (value * Z) :=
  user <- User_query_get id ;;
  match user with
  | None => ret (VDict [("error", VStr "User not found")], 404)
  | Some _ =>
      if negb (multidict_contains (files req) "file")
         || negb (multidict_contains (form req) "doc_type")
      then ret (VDict [("error", VStr "File and doc_type required")], 400)
      else
        file <- multidict_getitem (files req) "file" ;;
        doc_type <- multidict_getitem (form req) "doc_type" ;;
        url <- upload_to_supabase e file ("documents/" +:+ pretty id +:+ "/" +:+ doc_type) ;;
        doc_id <- add_Document e id doc_type url ;;
        ret (VDict [("status", VStr "uploaded"); ("doc_id", VInt doc_id);
                    ("doc_url", VStr url)], 201)
  end.

Definition list_documents (id : Z) : M (value * Z) :=
  docs <- Document_filter_by_user id ;;
  ret (VList (document_json <$> docs), 200).

Definition delete_document (doc_id : Z) : M (value * Z) :=
  doc <- Document_query_get doc_id ;;
  match doc with
  | None => ret (VDict [("error", VStr "Document not found")], 404)
  | Some _ =>
      delete_Document doc_id ;;;
      ret (VDict [("status", VStr "deleted")], 200)
  end.

Definition upload_face (e : env) (req : request) (id : Z) : M (value * Z) :=
  user <- User_query_get id ;;
  match user with
  | None => ret (VDict [("error", VStr "User not found")], 404)
  | Some _ =>
      if negb (multidict_contains (files req) "file")
      then ret (VDict [("error", VStr "File required")], 400)
      else
        file <- multidict_getitem (files req) "file" ;;
        url <- upload_to_supabase e file ("faces/" +:+ pretty id) ;;
        face_id <- add_Face e id url ;;
        ret (VDict [("status", VStr "uploaded"); ("face_id", VInt face_id);
                    ("face_url", VStr url)], 201)
  end.

Definition get_faces (id : Z) : M (value * Z) :=
  faces <- Face_filter_by_user id ;;
  ret (VList (face_json <$> faces), 200).

Definition delete_face (face_id : Z) : M (value * Z) :=
  face <- Face_query_get face_id ;;
  match face with
  | None => ret (VDict [("error", VStr "Face not found")], 404)
  | Some _ =>
      delete_Face face_id ;;;
      ret (VDict [("status", VStr "deleted")], 200)
  end.

(** *** Routing *)

(** The URL map of the application: method and path, with the [<int:..>]
    segment converted. *)
Inductive route : Type :=
| GET_home
| POST_users
| GET_user (id : Z)
| PUT_user (id : Z)
| DELETE_user (id : Z)
| POST_documents (id : Z)
| GET_documents (id : Z)
| DELETE_document (doc_id : Z)
| POST_face (id : Z)
| GET_face (id : Z)
| DELETE_face (face_id : Z).

Definition dispatch (e : env) (rt : route) (req : request) : M (value * Z) :=
  match rt with
  | GET_home => home
  | POST_users => create_user e req
  | GET_user id => get_user id
  | PUT_user id => update_user e req id
  | DELETE_user id => delete_user id
  | POST_documents id => upload_document e req id
  | GET_documents id => list_documents id
  | DELETE_document doc_id => delete_document doc_id
  | POST_face id => upload_face e req id
  | GET_face id => get_faces id
  | DELETE_face face_id => delete_face face_id
  end.

(** The response that leaves the server: a handler's JSON body and code, or
    the page Flask produces for an exception ([get_json] is then [None]). *)
Record response : Type := {
  status_code : Z;
  get_json : option value
}.

Definition serve (e : env) (rt : route) (req : request) (s : state) : response * state :=
  match dispatch e rt req s with
  | (Ok (body, code), s') => ({| status_code := code; get_json := Some body |}, s')
  | (Raise (HTTPException code), s') => ({| status_code := code; get_json := None |}, s')
  | (Raise _, s') => ({| status_code := 500; get_json := None |}, s')
  end.

(** The states the server can be in: it starts on empty tables and an empty
    bucket and serves one request after the other. *)
Inductive reachable : state → Prop :=
| reachable_init : reachable init
| reachable_serve (e : env) (rt : route) (req : request) (s : state) :
    reachable s → reachable (serve e rt req s).2.

End Server.

(** ** Vocabulary of the properties *)

(** The member [k] of a JSON body, when the body is an object that has it. *)
Definition payload_field (data : value) (k : string) : option value :=
  match data with
  | VDict d => dict_lookup k d
  | _ => None
  end.

(** What a column holds after a patch: its old cell when the payload does
    not name the field, the payload's text or NULL when it does, and for
    any other payload value whatever the driver [bind_text] stores for it
    in a VARCHAR([n]). *)
Definition field_after (bind_text : nat → value → option (option string))
    (n : nat) (old : option string) (payload : option value) (new : option string) : Prop :=
  match payload with
  | None => new = old
  | Some (VStr s) => new = Some s
  | Some VNone => new = None
  | Some v => bind_text n v = Some new
  end.

(** The driver stores a string as it is, and [None] as NULL, whenever it
    accepts them. *)
Definition stores_verbatim (bind_text : nat → value → option (option string)) : Prop :=
  (∀ (n : nat) (s : string) (c : option string), bind_text n (VStr s) = Some c → c = Some s)
  ∧ (∀ (n : nat) (c : option string), bind_text n VNone = Some c → c = None).

(** The driver stores [None] as NULL whenever it accepts it. *)
Definition stores_none_as_null (bind_text : nat → value → option (option string)) : Prop :=
  ∀ (n : nat) (c : option string), bind_text n VNone = Some c → c = None.

(** What a column holds after a patch, whatever the driver: its old cell
    when the payload does not name the field or names it with a value equal
    to the one stored, and otherwise the cell the driver [bind_text] stores
    for the payload's value in a VARCHAR([n]). *)
Definition stored_as (bind_text : nat → value → option (option string))
    (n : nat) (old : option string) (payload : option value) (new : option string) : Prop :=
  match payload with
  | None => new = old
  | Some v => if same_value v old then new = old else bind_text n v = Some new
  end.

(** An exception of the handler's own code or of the database, which Flask
    turns into a 500. *)
Definition internal (ex : exn) : Prop :=
  match ex with HTTPException _ => False | _ => True end.

(** A computation that never writes the User table. *)
Definition keeps_users {A : Type} (m : M A) : Prop :=
  ∀ s : state, users (m s).2 = users s.

(** No two rows of the User table share a non-NULL aadhaar. *)
Definition aadhaar_unique (us : gmap Z User.t) : Prop :=
  ∀ (i j : Z) (u v : User.t) (a : string),
    us !! i = Some u → us !! j = Some v →
    User.aadhaar u = Some a → User.aadhaar v = Some a → i = j.

(** ** The endpoint base as the specification words it *)

(** The specification asks for the endpoint with its [/s3] path suffix
    stripped, if present.  [strip_suffix] removes [suffix] from the end of
    [s] and nowhere else; the source calls [replace] instead. *)
Fixpoint strip_suffix (suffix s : string) : string :=
  if String.eqb s suffix then EmptyString
  else match s with
       | EmptyString => EmptyString
       | String c s' => String c (strip_suffix suffix s')
       end.

(** ** Concrete instances *)

(** A binder that stores text as it is when it fits the column, NULL for
    [None], and refuses everything else. *)
Definition verbatim_text (n : nat) (v : value) : option (option string) :=
  match v with
  | VNone => Some None
  | VStr s => if bool_decide (String.length s ≤ n)%nat then Some (Some s) else None
  | _ => None
  end.

Definition at_time (t : Z) : env :=
  {| utcnow := t; s3_up := true; key_given_back := false |}.

Definition json_request (v : value) : request :=
  {| json := Json v; files := []; form := [] |}.

Definition no_body : request :=
  {| json := NotJson 415; files := []; form := [] |}.

Definition photo : FileStorage :=
  {| filename := "id.png"; mimetype := "image/png"; stream := "PNG" |}.

Definition ex_server : env → route → request → state → response * state :=
  serve "https://ref.supabase.co/storage/v1/s3" "kyc" (fun f => f) verbatim_text.

(** One user, created at time 100. *)
Definition ex_new_user : request :=
  json_request (VDict [("name", VStr "Asha"); ("phone", VStr "9000000000");
                       ("aadhaar", VStr "123412341234")]).

Definition ex_state1 : state := (ex_server (at_time 100) POST_users ex_new_user init).2.

Definition ex_user : User.t :=
  User.mk "Asha" "9000000000" (Some "123412341234") None None (Some 100) None.

(** An upload of a document, and a database that holds the same user and
    one Document row that refers to it (a row that was not written through
    the routes). *)
Definition ex_upload : request :=
  {| json := NotJson 415; files := [("file", photo)]; form := [("doc_type", "pan")] |}.

Definition ex_document : Document.t :=
  Document.mk 1 "pan"
    "https://ref.supabase.co/storage/v1/object/public/kyc/documents/1/pan/id.png"
    (Some "pending") (Some 110).

Definition ex_state2 : state :=
  {| users := users ex_state1; users_seq := users_seq ex_state1;
     documents := {[ 1 := ex_document ]}; documents_seq := 2;
     faces := ∅; faces_seq := 1;
     bucket := [] |}.

(** The user after its phone was changed at time 150. *)
Definition ex_patch : request :=
  json_request (VDict [("phone", VStr "9999999999")]).

Definition ex_state3 : state :=
  (ex_server (at_time 150) (PUT_user 1) ex_patch ex_state1).2.

(** An upload that sends the file and no [doc_type]. *)
Definition ex_upload_no_type : request :=
  {| json := NotJson 415; files := [("file", photo)]; form := [] |}.

(** A second registration with the aadhaar of the first, and one without
    a name. *)
Definition ex_duplicate : request :=
  json_request (VDict [("name", VStr "Ravi"); ("phone", VStr "9111111111");
                       ("aadhaar", VStr "123412341234")]).

Definition ex_nameless : request :=
  json_request (VDict [("phone", VStr "9111111111")]).

(** Further instances: a clock reading with the object store down, an
    upload whose [doc_type] is longer than its column, a second user, a
    patch that takes the aadhaar of the first, and a registration with a
    null name. *)
Definition storage_down (t : Z) : env :=
  {| utcnow := t; s3_up := false; key_given_back := false |}.


Definition ex_second_user : request :=
  json_request (VDict [("name", VStr "Ravi"); ("phone", VStr "9111111111");
                       ("aadhaar", VStr "555566667777")]).

Definition ex_user2 : User.t :=
  User.mk "Ravi" "9111111111" (Some "555566667777") None None (Some 105) None.

Definition ex_state4 : state :=
  (ex_server (at_time 105) POST_users ex_second_user ex_state1).2.

Definition ex_take_aadhaar : request :=
  json_request (VDict [("aadhaar", VStr "123412341234")]).

Definition ex_null_name : request :=
  json_request (VDict [("name", VNone); ("phone", VStr "9111111111")]).

(** ** Vocabulary of the coverage properties *)

(** The URL [upload_to_supabase] returns for an object key, the put it
    makes for a file and a destination path, and the two destination paths
    the handlers compose. *)
Definition public_url (endpoint bucket_name key : string) : string :=
  replace endpoint "/s3" "" +:+ "/object/public/" +:+ bucket_name +:+ "/" +:+ key.

Definition object_key (secure_filename : string → string) (path : string)
    (file : FileStorage) : string :=
  path +:+ "/" +:+ secure_filename (filename file).

Definition object_put (bucket_name : string) (secure_filename : string → string)
    (path : string) (file : FileStorage) : s3_put :=
  {| put_bucket := bucket_name;
     put_key := object_key secure_filename path file;
     put_body := stream file;
     put_content_type := mimetype file |}.

Definition document_path (id : Z) (doc_type : string) : string :=
  "documents/" +:+ pretty id +:+ "/" +:+ doc_type.

Definition face_path (id : Z) : string := "faces/" +:+ pretty id.

(** The three tables and their key generators are the same in both states. *)
Definition same_tables (s s' : state) : Prop :=
  users s' = users s ∧ users_seq s' = users_seq s
  ∧ documents s' = documents s ∧ documents_seq s' = documents_seq s
  ∧ faces s' = faces s ∧ faces_seq s' = faces_seq s.

(** The rows of the three tables are the same in both states. *)
Definition same_rows (s s' : state) : Prop :=
  users s' = users s ∧ documents s' = documents s ∧ faces s' = faces s.

(** Every key of a table lies below the table's generator. *)
Definition keys_below_seq (s : state) : Prop :=
  (∀ i : Z, is_Some (users s !! i) → i < users_seq s)
  ∧ (∀ i : Z, is_Some (documents s !! i) → i < documents_seq s)
  ∧ (∀ i : Z, is_Some (faces s !! i) → i < faces_seq s).





(** What serving one request can do to the state: nothing, a put that no
    row follows, a key drawn by a refused INSERT, or one User row added,
    patched or deleted, as the handlers write it.  [bucket_name] is the
    bucket of the server. *)
Inductive effect (bucket_name : string) (e : env) (s : state) : state → Prop :=
| effect_none : effect bucket_name e s s
| effect_put (p : s3_put) :
    put_bucket p = bucket_name →
    effect bucket_name e s (add_put p s)
| effect_key_drawn :
    key_given_back e = false →
    effect bucket_name e s (set_users (fun us => us) Z.succ s)
| effect_user_added (name phone : string) (aadhaar : option string) :
    users s !! users_seq s = None →
    aadhaar_taken aadhaar None (users s) = false →
    effect bucket_name e s
      (set_users
         (insert (users_seq s)
            (User.mk name phone aadhaar None None (Some (utcnow e)) None))
         Z.succ s)
| effect_user_patched (id : Z) (u : User.t) (name phone : string) (aadhaar : option string) :
    users s !! id = Some u →
    effect bucket_name e s
      (set_users
         (insert id
            (User.mk name phone aadhaar (User.email u) (User.address u)
               (User.created_at u) (Some (utcnow e))))
         (fun k => k) s)
| effect_user_deleted (id : Z) :
    is_Some (users s !! id) →
    effect bucket_name e s (set_users (delete id) (fun k => k) s).

(** * Properties *)

(** Unfold a handler down to the state function it denotes. *)
Ltac run_handler :=
  unfold serve, dispatch, home, create_user, get_user, update_user, delete_user,
    upload_document, list_documents, delete_document, upload_face, get_faces,
    delete_face, User_query_get, Document_query_get, Face_query_get,
    Document_filter_by_user, Face_filter_by_user, delete_User, delete_Document,
    delete_Face, bind, ret, raise, lift, gets, modify in *;
  simpl in *.

(** The two side conditions of the concrete instances. *)
Ltac verbatim_binder :=
  split; [intros n s c; simpl; destruct (bool_decide _); congruence
         | intros n c; simpl; congruence].

Ltac served :=
  repeat first [apply reachable_init
               | unfold ex_state1, ex_state3, ex_state4, ex_server;
                 apply reachable_serve].

Definition not_found (what : string) : response :=
  {| status_code := 404;
     get_json := Some (VDict [("error", VStr (what +:+ " not found"))]) |}.

Section Properties.

Variable S3_ENDPOINT : string.
Variable S3_BUCKET : string.
Variable secure_filename : string → string.
Variable bind_text : nat → value → option (option string).

Abbreviation server := (serve S3_ENDPOINT S3_BUCKET secure_filename bind_text).

(** C1.  An upload of a document or of a face for an id that no User row
    has is answered 404 with an error body, and leaves the whole state as
    it was: nothing is put into the bucket and no row is inserted. *)
Theorem upload_for_unknown_user (e : env) (req : request) (id : Z) (s : state) :
  users s !! id = None →
  server e (POST_documents id) req s = (not_found "User", s)
  ∧ server e (POST_face id) req s = (not_found "User", s).
Proof.
  intros Hnone. split; run_handler; rewrite Hnone; reflexivity.
Qed.

(** C9.  In both upload handlers the look-up of the user comes before the
    test of the form fields: a request that lacks [file] or [doc_type] is
    answered 404, "User not found", when the user does not exist, although
    the same request is answered 400 as soon as the user exists. *)
Theorem user_check_precedes_validation (e : env) (req : request) (id : Z) (s : state) :
  users s !! id = None →
  (multidict_contains (files req) "file" = false
   ∨ multidict_contains (form req) "doc_type" = false →
   (server e (POST_documents id) req s).1 = not_found "User"
   ∧ ∀ (u : User.t) (s' : state), users s' !! id = Some u →
       status_code (server e (POST_documents id) req s').1 = 400)
  ∧ (multidict_contains (files req) "file" = false →
     (server e (POST_face id) req s).1 = not_found "User"
     ∧ ∀ (u : User.t) (s' : state), users s' !! id = Some u →
         status_code (server e (POST_face id) req s').1 = 400).
Proof.
  intros Hnone. split.
  - intros Hmiss. split.
    + run_handler. rewrite Hnone. reflexivity.
    + intros u s' Hu. run_handler. rewrite Hu.
      destruct Hmiss as [-> | ->]; simpl; [reflexivity |].
      rewrite orb_true_r. reflexivity.
  - intros Hmiss. split.
    + run_handler. rewrite Hnone. reflexivity.
    + intros u s' Hu. run_handler. rewrite Hu, Hmiss. reflexivity.
Qed.

(** C7.  A read, update or delete by primary key that finds no row is
    answered 404 with a JSON error body, and the state is left as it was. *)
Theorem missing_row_is_404 (e : env) (req : request) (id : Z) (s : state) :
  (users s !! id = None →
   server e (GET_user id) req s = (not_found "User", s)
   ∧ server e (PUT_user id) req s = (not_found "User", s)
   ∧ server e (DELETE_user id) req s = (not_found "User", s))
  ∧ (documents s !! id = None →
     server e (DELETE_document id) req s = (not_found "Document", s))
  ∧ (faces s !! id = None →
     server e (DELETE_face id) req s = (not_found "Face", s)).
Proof.
  split; [| split]; intros Hnone; [repeat apply conj | |];
    run_handler; rewrite Hnone; reflexivity.
Qed.

(** C8.  Deleting an existing user is answered 200 and removes the User row
    and nothing else: the Document and Face tables, with every row that
    refers to the deleted id, and the bucket are as before. *)
Theorem delete_user_leaves_orphans (e : env) (req : request) (id : Z) (u : User.t) (s : state) :
  users s !! id = Some u →
  ∃ s' : state,
    server e (DELETE_user id) req s
    = ({| status_code := 200; get_json := Some (VDict [("status", VStr "deleted")]) |}, s')
    ∧ users s' = delete id (users s)
    ∧ documents s' = documents s
    ∧ faces s' = faces s
    ∧ bucket s' = bucket s
    ∧ (∀ (k : Z) (d : Document.t),
         documents s !! k = Some d → Document.user_id d = id → documents s' !! k = Some d)
    ∧ (∀ (k : Z) (f : Face.t),
         faces s !! k = Some f → Face.user_id f = id → faces s' !! k = Some f).
Proof.
  intros Hu. run_handler. rewrite Hu. simpl.
  eexists. split; [reflexivity |]. simpl. repeat split; auto.
Qed.

(** C10.  The body of GET /users/{id} for an existing user has the five
    fields id, name, phone, aadhaar and created_at, in that order and no
    other: the email, address and updated_at of the row are not in it. *)
Theorem get_user_projection (e : env) (req : request) (id : Z) (u : User.t) (s : state) :
  users s !! id = Some u →
  ∃ d : list (string * value),
    server e (GET_user id) req s = ({| status_code := 200; get_json := Some (VDict d) |}, s)
    ∧ d.*1 = ["id"; "name"; "phone"; "aadhaar"; "created_at"]
    ∧ d.*2 = [VInt id; VStr (User.name u); VStr (User.phone u);
              str_or_none (User.aadhaar u); datetime_or_none (User.created_at u)]
    ∧ dict_lookup "email" d = None
    ∧ dict_lookup "address" d = None
    ∧ dict_lookup "updated_at" d = None.
Proof.
  intros Hu. run_handler. rewrite Hu.
  eexists. split; [reflexivity |]. repeat split.
Qed.

(** The projections of the rows a listing selects are pairwise different,
    since each carries the primary key of its row. *)
Lemma NoDup_document_listing (id : Z) (m : gmap Z Document.t) :
  NoDup (document_json
           <$> filter (fun kd : Z * Document.t => Document.user_id kd.2 = id)
                 (map_to_list m)).
Proof.
  apply NoDup_fmap_2_strong; [| apply NoDup_filter, NoDup_map_to_list].
  intros [k d] [k' d'] Hin Hin' Heq.
  apply list_elem_of_filter in Hin as [_ Hin]. apply elem_of_map_to_list in Hin.
  apply list_elem_of_filter in Hin' as [_ Hin']. apply elem_of_map_to_list in Hin'.
  unfold document_json in Heq. simpl in Heq. inversion Heq; subst k'.
  rewrite Hin in Hin'. congruence.
Qed.

Lemma NoDup_face_listing (id : Z) (m : gmap Z Face.t) :
  NoDup (face_json
           <$> filter (fun kf : Z * Face.t => Face.user_id kf.2 = id) (map_to_list m)).
Proof.
  apply NoDup_fmap_2_strong; [| apply NoDup_filter, NoDup_map_to_list].
  intros [k f] [k' f'] Hin Hin' Heq.
  apply list_elem_of_filter in Hin as [_ Hin]. apply elem_of_map_to_list in Hin.
  apply list_elem_of_filter in Hin' as [_ Hin']. apply elem_of_map_to_list in Hin'.
  unfold face_json in Heq. simpl in Heq. inversion Heq; subst k'.
  rewrite Hin in Hin'. congruence.
Qed.

(** C6, as the code has it.  The two listing handlers never look the user
    up: for every id, known or not, the answer is 200 with an array that
    holds the projection of each Document (Face) row whose [user_id] is the
    id exactly once and nothing else, in some order, an empty array when
    there is no such row, and the state is untouched. *)
Theorem listing_never_resolves_user (e : env) (req : request) (id : Z) (s : state) :
  (∃ l : list value,
     server e (GET_documents id) req s
     = ({| status_code := 200; get_json := Some (VList l) |}, s)
     ∧ NoDup l
     ∧ (∀ x : value, x ∈ l ↔
          ∃ (k : Z) (d : Document.t),
            documents s !! k = Some d ∧ Document.user_id d = id ∧ x = document_json (k, d))
     ∧ ((∀ (k : Z) (d : Document.t),
           documents s !! k = Some d → Document.user_id d ≠ id) → l = []))
  ∧ (∃ l : list value,
       server e (GET_face id) req s
       = ({| status_code := 200; get_json := Some (VList l) |}, s)
       ∧ NoDup l
       ∧ (∀ x : value, x ∈ l ↔
            ∃ (k : Z) (f : Face.t),
              faces s !! k = Some f ∧ Face.user_id f = id ∧ x = face_json (k, f))
       ∧ ((∀ (k : Z) (f : Face.t),
             faces s !! k = Some f → Face.user_id f ≠ id) → l = [])).
Proof.
  split; run_handler; eexists; (split; [reflexivity |]);
    (split; [first [apply NoDup_document_listing | apply NoDup_face_listing] |]); split.
  - intros x. rewrite list_elem_of_fmap. split.
    + intros [[k d] [-> Hin]]. apply list_elem_of_filter in Hin as [Hid Hin].
      apply elem_of_map_to_list in Hin. eauto.
    + intros (k & d & Hk & Hid & ->). exists (k, d). split; [reflexivity |].
      apply list_elem_of_filter. split; [exact Hid |].
      apply elem_of_map_to_list. exact Hk.
  - intros Hno.
    destruct (filter _ (map_to_list (documents s))) as [| [k d] l] eqn:Hl; [reflexivity |].
    assert (Hin : (k, d) ∈ filter (fun kd : Z * Document.t => Document.user_id kd.2 = id)
                              (map_to_list (documents s))) by (rewrite Hl; left).
    apply list_elem_of_filter in Hin as [Hid Hin].
    apply elem_of_map_to_list in Hin. destruct (Hno k d Hin Hid).
  - intros x. rewrite list_elem_of_fmap. split.
    + intros [[k f] [-> Hin]]. apply list_elem_of_filter in Hin as [Hid Hin].
      apply elem_of_map_to_list in Hin. eauto.
    + intros (k & f & Hk & Hid & ->). exists (k, f). split; [reflexivity |].
      apply list_elem_of_filter. split; [exact Hid |].
      apply elem_of_map_to_list. exact Hk.
  - intros Hno.
    destruct (filter _ (map_to_list (faces s))) as [| [k f] l] eqn:Hl; [reflexivity |].
    assert (Hin : (k, f) ∈ filter (fun kf : Z * Face.t => Face.user_id kf.2 = id)
                              (map_to_list (faces s))) by (rewrite Hl; left).
    apply list_elem_of_filter in Hin as [Hid Hin].
    apply elem_of_map_to_list in Hin. destruct (Hno k f Hin Hid).
Qed.

(** C2, as the code has it.  On an existing user an upload that lacks a
    required form field is answered 400 with a message naming the fields;
    on an unknown user it is answered 404; a POST /users whose body has no
    [name] or no [phone] never reaches the database.  In all three cases
    the state is as before: no row inserted, nothing put into the bucket. *)
Theorem missing_field_has_no_side_effect (e : env) (req : request) (id : Z) (s : state) :
  (∀ u : User.t, users s !! id = Some u →
     (multidict_contains (files req) "file" = false
      ∨ multidict_contains (form req) "doc_type" = false →
      server e (POST_documents id) req s
      = ({| status_code := 400;
            get_json := Some (VDict [("error", VStr "File and doc_type required")]) |}, s))
     ∧ (multidict_contains (files req) "file" = false →
        server e (POST_face id) req s
        = ({| status_code := 400;
              get_json := Some (VDict [("error", VStr "File required")]) |}, s)))
  ∧ (users s !! id = None →
     server e (POST_documents id) req s = (not_found "User", s)
     ∧ server e (POST_face id) req s = (not_found "User", s))
  ∧ (∀ d : list (string * value), json req = Json (VDict d) →
       dict_lookup "name" d = None ∨ dict_lookup "phone" d = None →
       (server e POST_users req s).2 = s).
Proof.
  split; [| split].
  - intros u Hu. split; intros Hmiss; run_handler; rewrite Hu.
    + destruct Hmiss as [-> | ->]; simpl; [reflexivity |].
      rewrite orb_true_r. reflexivity.
    + rewrite Hmiss. reflexivity.
  - intros Hnone. split; run_handler; rewrite Hnone; reflexivity.
  - intros d Hjson Hmiss. run_handler. unfold request_json. rewrite Hjson. simpl.
    destruct Hmiss as [Hmiss | Hmiss].
    + rewrite Hmiss. reflexivity.
    + destruct (dict_lookup "name" d); [| reflexivity].
      rewrite Hmiss. reflexivity.
Qed.

(** C4, at an endpoint the claim does not survive.  With the endpoint
    [https://s3.example.com/storage/v1/s3] the helper puts the object under
    [path/secure_filename(f)] as claimed, but [replace] also removes the
    [/s3] that opens the host name: the URL returned starts with
    [https:/.example.com/storage/v1], not with the endpoint stripped of its
    suffix, [https://s3.example.com/storage/v1]. *)
Theorem upload_url_replaces_every_s3 (t : Z) (file : FileStorage) (path : string) (s : state) :
  let endpoint := "https://s3.example.com/storage/v1/s3" in
  let key := path +:+ "/" +:+ secure_filename (filename file) in
  ∃ url : string,
    upload_to_supabase endpoint S3_BUCKET secure_filename (at_time t) file path s
    = (Ok url,
       add_put {| put_bucket := S3_BUCKET; put_key := key;
                  put_body := stream file; put_content_type := mimetype file |} s)
    ∧ url = "https:/.example.com/storage/v1" +:+ "/object/public/" +:+ S3_BUCKET +:+ "/" +:+ key
    ∧ strip_suffix "/s3" endpoint = "https://s3.example.com/storage/v1"
    ∧ url ≠ strip_suffix "/s3" endpoint +:+ "/object/public/" +:+ S3_BUCKET +:+ "/" +:+ key.
Proof.
  intros endpoint key. eexists. split; [reflexivity |].
  split; [reflexivity |]. split; [reflexivity |].
  vm_compute. discriminate.
Qed.

(** *** The commit of a patch, field by field *)

Lemma bind_inv {A B : Type} (m : M A) (f : A → M B) (s s' : state) (r : result B) :
  bind m f s = (r, s') →
  (∃ (a : A) (s1 : state), m s = (Ok a, s1) ∧ f a s1 = (r, s'))
  ∨ (∃ ex : exn, m s = (Raise ex, s') ∧ r = Raise ex).
Proof.
  unfold bind. destruct (m s) as [[a | ex] s1]; intros H.
  - left. eauto.
  - right. inversion H; subst. eauto.
Qed.

Lemma assigned_spec (data : value) (k : string) (s : state) :
  assigned data k s = (Ok (payload_field data k), s)
  ∨ ∃ ex : exn, assigned data k s = (Raise ex, s) ∧ internal ex.
Proof.
  unfold assigned, bind, lift, ret.
  destruct data as [| b | z | f | str | l | d | t]; simpl;
    try (right; eexists; split; [reflexivity | exact I]).
  - destruct (str_contains k str); [right; eexists; split; [reflexivity | exact I] | left; reflexivity].
  - destruct (existsb _ l); [right; eexists; split; [reflexivity | exact I] | left; reflexivity].
  - destruct (dict_lookup k d) as [v |]; left; reflexivity.
Qed.

Lemma same_value_field_after (n : nat) (v : value) (old : option string) :
  same_value v old = true → field_after bind_text n old (Some v) old.
Proof.
  destruct v, old; simpl; try discriminate; intros H; try reflexivity.
  apply String.eqb_eq in H. subst. reflexivity.
Qed.

(** One field of a patch: the cell is rewritten only when the value
    assigned differs from the loaded one. *)
Lemma patch_not_null_exact (n : nat) (old : string) (p : option value) (s s' : state)
    (r : result string) :
  (if changed p (Some old) then bind_not_null bind_text n (default VNone p) else ret old) s
  = (r, s') →
  s' = s
  ∧ match r with
    | Ok x => stored_as bind_text n (Some old) p (Some x)
              ∧ (changed p (Some old) = false → x = old)
    | Raise ex => internal ex
    end.
Proof.
  destruct p as [v |]; simpl.
  - destruct (same_value v (Some old)) eqn:Hsame; simpl.
    + intros H. inversion H; subst. repeat split.
    + unfold bind_not_null. destruct (bind_text n v) as [[x |] |] eqn:Hb;
        intros H; inversion H; subst; (split; [reflexivity |]); try exact I.
      split; [reflexivity | discriminate].
  - intros H. inversion H; subst. repeat split.
Qed.

Lemma patch_nullable_exact (n : nat) (old : option string) (p : option value) (s s' : state)
    (r : result (option string)) :
  (if changed p old then bind_nullable bind_text n (default VNone p) else ret old) s
  = (r, s') →
  s' = s
  ∧ match r with
    | Ok x => stored_as bind_text n old p x ∧ (changed p old = false → x = old)
    | Raise ex => internal ex
    end.
Proof.
  destruct p as [v |]; simpl.
  - destruct (same_value v old) eqn:Hsame; simpl.
    + intros H. inversion H; subst. repeat split.
    + unfold bind_nullable. destruct (bind_text n v) as [x |] eqn:Hb;
        intros H; inversion H; subst; (split; [reflexivity |]); try exact I.
      split; [reflexivity | discriminate].
  - intros H. inversion H; subst. repeat split.
Qed.

Lemma stored_as_unchanged (n : nat) (p : option value) (old : option string) :
  changed p old = false → stored_as bind_text n old p old.
Proof.
  destruct p as [v |]; simpl; [| reflexivity].
  intros H. apply negb_false_iff in H. rewrite H. reflexivity.
Qed.

Lemma stored_as_field_after (n : nat) (old new : option string) (p : option value) :
  stores_verbatim bind_text → stored_as bind_text n old p new →
  field_after bind_text n old p new.
Proof.
  intros [Hstr Hnone]. destruct p as [v |]; simpl; [| auto].
  destruct (same_value v old) eqn:Hsame.
  - intros ->. apply same_value_field_after. exact Hsame.
  - intros Hb. destruct v; simpl; try exact Hb.
    + apply Hnone in Hb. exact Hb.
    + apply Hstr in Hb. exact Hb.
Qed.

(** What a commit of [update_user] leaves behind. *)
Lemma commit_User_exact (e : env) (id : Z) (u : User.t) (p n a : option value)
    (s s' : state) (r : result unit) :
  commit_User bind_text e id u p n a s = (r, s') →
  let dirty := changed p (Some (User.phone u)) || changed n (Some (User.name u))
               || changed a (User.aadhaar u) in
  match r with
  | Raise ex => s' = s ∧ internal ex
  | Ok _ =>
      ∃ u' : User.t,
        s' = (if dirty then set_users (insert id u') (fun k => k) s else s)
        ∧ (dirty = false → u' = u)
        ∧ stored_as bind_text 15 (Some (User.phone u)) p (Some (User.phone u'))
        ∧ stored_as bind_text 120 (Some (User.name u)) n (Some (User.name u'))
        ∧ stored_as bind_text 12 (User.aadhaar u) a (User.aadhaar u')
        ∧ User.email u' = User.email u
        ∧ User.address u' = User.address u
        ∧ User.created_at u' = User.created_at u
        ∧ User.updated_at u' = (if dirty then Some (utcnow e) else User.updated_at u)
        ∧ (changed a (User.aadhaar u) = false → User.aadhaar u' = User.aadhaar u)
        ∧ (dirty = true → changed a (User.aadhaar u) = true →
           aadhaar_taken (User.aadhaar u') (Some id) (users s) = false)
  end.
Proof.
  intros H dirty. unfold commit_User in H. fold dirty in H.
  destruct dirty eqn:Hdirty; simpl in H.
  - apply bind_inv in H as [(ph & s1 & H1 & H) | (ex & H1 & ->)];
      apply patch_not_null_exact in H1 as [-> H1]; [| split; [reflexivity | exact H1]].
    apply bind_inv in H as [(nm & s1 & H2 & H) | (ex & H2 & ->)];
      apply patch_not_null_exact in H2 as [-> H2]; [| split; [reflexivity | exact H2]].
    apply bind_inv in H as [(ad & s1 & H3 & H) | (ex & H3 & ->)];
      apply patch_nullable_exact in H3 as [-> H3]; [| split; [reflexivity | exact H3]].
    unfold bind, gets, modify, raise in H. simpl in H.
    destruct (changed a (User.aadhaar u) && aadhaar_taken ad (Some id) (users s)) eqn:Htaken;
      inversion H; subst; clear H; [split; [reflexivity | exact I] |].
    eexists (User.mk nm ph ad _ _ _ _). simpl.
    split; [reflexivity |]. split; [discriminate |].
    destruct H1 as [H1 _], H2 as [H2 _], H3 as [H3 H3'].
    repeat (split; [first [assumption | reflexivity] |]).
    intros _ Hc. rewrite Hc in Htaken. exact Htaken.
  - inversion H; subst; clear H. exists u.
    apply orb_false_iff in Hdirty as [Hdirty Ha].
    apply orb_false_iff in Hdirty as [Hp Hn].
    split; [reflexivity |]. split; [reflexivity |].
    repeat (split; [first [apply stored_as_unchanged; assumption | reflexivity] |]).
    discriminate.
Qed.

(** The same under a driver that stores strings as they are. *)
Lemma commit_User_spec (e : env) (id : Z) (u : User.t) (p n a : option value)
    (s s' : state) (r : result unit) :
  stores_verbatim bind_text →
  commit_User bind_text e id u p n a s = (r, s') →
  let dirty := changed p (Some (User.phone u)) || changed n (Some (User.name u))
               || changed a (User.aadhaar u) in
  match r with
  | Raise ex => s' = s ∧ internal ex
  | Ok _ =>
      ∃ u' : User.t,
        s' = (if dirty then set_users (insert id u') (fun k => k) s else s)
        ∧ (dirty = false → u' = u)
        ∧ field_after bind_text 15 (Some (User.phone u)) p (Some (User.phone u'))
        ∧ field_after bind_text 120 (Some (User.name u)) n (Some (User.name u'))
        ∧ field_after bind_text 12 (User.aadhaar u) a (User.aadhaar u')
        ∧ User.email u' = User.email u
        ∧ User.address u' = User.address u
        ∧ User.created_at u' = User.created_at u
        ∧ User.updated_at u' = (if dirty then Some (utcnow e) else User.updated_at u)
        ∧ (changed a (User.aadhaar u) = false → User.aadhaar u' = User.aadhaar u)
        ∧ (dirty = true → changed a (User.aadhaar u) = true →
           aadhaar_taken (User.aadhaar u') (Some id) (users s) = false)
  end.
Proof.
  intros Hv H dirty. apply commit_User_exact in H. fold dirty in H.
  destruct r as [[] | ex]; [| exact H].
  destruct H as (u' & Hs & Hsame & Hp & Hn & Ha & Hrest). exists u'.
  split; [exact Hs |]. split; [exact Hsame |].
  repeat (split; [apply stored_as_field_after; assumption |]). exact Hrest.
Qed.

Lemma bind_assigned {B : Type} (data : value) (k : string) (f : option value → M B)
    (s s' : state) (r : result B) :
  bind (assigned data k) f s = (r, s') →
  f (payload_field data k) s = (r, s')
  ∨ ∃ ex : exn, r = Raise ex ∧ s' = s ∧ internal ex.
Proof.
  unfold bind at 1.
  destruct (assigned_spec data k s) as [-> | (ex & -> & Hi)]; intros H.
  - left. exact H.
  - right. inversion H. eauto.
Qed.

Lemma update_user_commit (e : env) (req : request) (data : value) (id : Z) (u : User.t)
    (s s' : state) (r : result (value * Z)) :
  users s !! id = Some u →
  json req = Json data →
  update_user bind_text e req id s = (r, s') →
  match r with
  | Raise ex => s' = s ∧ internal ex
  | Ok (body, code) =>
      body = VDict [("status", VStr "updated")] ∧ code = 200
      ∧ commit_User bind_text e id u (payload_field data "phone")
          (payload_field data "name") (payload_field data "aadhaar") s = (Ok tt, s')
  end.
Proof.
  intros Hu Hjson. unfold update_user, User_query_get, request_json.
  rewrite Hjson. unfold bind at 1. unfold gets. rewrite Hu. unfold bind at 1. unfold ret at 1.
  intros H.
  apply bind_assigned in H as [H | (ex & -> & -> & Hi)]; [| split; [reflexivity | exact Hi]].
  apply bind_assigned in H as [H | (ex & -> & -> & Hi)]; [| split; [reflexivity | exact Hi]].
  apply bind_assigned in H as [H | (ex & -> & -> & Hi)]; [| split; [reflexivity | exact Hi]].
  apply bind_inv in H as [([] & s4 & Hc & H) | (ex & Hc & ->)].
  - inversion H; subst. auto.
  - apply commit_User_exact in Hc. exact Hc.
Qed.

Lemma update_user_spec (e : env) (req : request) (data : value) (id : Z) (u : User.t)
    (s s' : state) (r : result (value * Z)) :
  stores_verbatim bind_text →
  users s !! id = Some u →
  json req = Json data →
  update_user bind_text e req id s = (r, s') →
  match r with
  | Raise ex => s' = s ∧ internal ex
  | Ok (body, code) =>
      body = VDict [("status", VStr "updated")] ∧ code = 200
      ∧ commit_User bind_text e id u (payload_field data "phone")
          (payload_field data "name") (payload_field data "aadhaar") s = (Ok tt, s')
  end.
Proof. intros _. apply update_user_commit. Qed.

(** C5, as the code has it.  A PUT /users/{id} that is answered 200 is a
    partial patch of phone, name and aadhaar: a field the body does not
    name keeps its value, and a field it names holds afterwards what the
    database driver stores for the value of the body (the cell is left as
    it is when that value equals the stored one); with a driver that
    stores strings as they are this is the string of the body itself, and
    NULL for null.  Email, address, created_at, every other User row, the
    Document and Face tables and the bucket are untouched.  [updated_at]
    becomes the clock reading of the request exactly when one of the three
    fields is given a value different from the stored one (it is then
    later than its old value if the clock has advanced since); a patch that
    changes nothing leaves [updated_at] as it was. *)
Theorem update_user_is_partial_patch (e : env) (req : request) (data : value) (id : Z)
    (u : User.t) (s s' : state) (r : response) :
  users s !! id = Some u →
  json req = Json data →
  server e (PUT_user id) req s = (r, s') →
  status_code r = 200 →
  let net_change :=
    changed (payload_field data "phone") (Some (User.phone u))
    || changed (payload_field data "name") (Some (User.name u))
    || changed (payload_field data "aadhaar") (User.aadhaar u) in
  ∃ u' : User.t,
    users s' !! id = Some u'
    ∧ stored_as bind_text 15 (Some (User.phone u)) (payload_field data "phone")
        (Some (User.phone u'))
    ∧ stored_as bind_text 120 (Some (User.name u)) (payload_field data "name")
        (Some (User.name u'))
    ∧ stored_as bind_text 12 (User.aadhaar u) (payload_field data "aadhaar")
        (User.aadhaar u')
    ∧ (stores_verbatim bind_text →
       field_after bind_text 15 (Some (User.phone u)) (payload_field data "phone")
         (Some (User.phone u'))
       ∧ field_after bind_text 120 (Some (User.name u)) (payload_field data "name")
           (Some (User.name u'))
       ∧ field_after bind_text 12 (User.aadhaar u) (payload_field data "aadhaar")
           (User.aadhaar u'))
    ∧ User.email u' = User.email u
    ∧ User.address u' = User.address u
    ∧ User.created_at u' = User.created_at u
    ∧ User.updated_at u' = (if net_change then Some (utcnow e) else User.updated_at u)
    ∧ (∀ t : Z, net_change = true → User.updated_at u = Some t → t < utcnow e →
         ∃ t' : Z, User.updated_at u' = Some t' ∧ t < t')
    ∧ (∀ j : Z, j ≠ id → users s' !! j = users s !! j)
    ∧ documents s' = documents s
    ∧ faces s' = faces s
    ∧ bucket s' = bucket s.
Proof.
  intros Hu Hjson Hserve H200 net_change.
  unfold serve, dispatch in Hserve.
  destruct (update_user bind_text e req id s) as [res s1] eqn:Hupd.
  pose proof (update_user_commit _ _ _ _ _ _ _ _ Hu Hjson Hupd) as Hspec.
  destruct res as [[body code] | ex].
  - destruct Hspec as (-> & -> & Hc). inversion Hserve; subst; clear Hserve.
    pose proof (commit_User_exact _ _ _ _ _ _ _ _ _ Hc) as Hspec. simpl in Hspec.
    fold net_change in Hspec.
    destruct Hspec as (u' & -> & Hsame & Hp & Hn & Ha & Hem & Had & Hcr & Hup & _).
    exists u'.
    assert (Hverbatim : stores_verbatim bind_text →
              field_after bind_text 15 (Some (User.phone u)) (payload_field data "phone")
                (Some (User.phone u'))
              ∧ field_after bind_text 120 (Some (User.name u)) (payload_field data "name")
                  (Some (User.name u'))
              ∧ field_after bind_text 12 (User.aadhaar u) (payload_field data "aadhaar")
                  (User.aadhaar u')).
    { intros Hv. repeat split; apply stored_as_field_after; assumption. }
    destruct net_change eqn:Hnet.
    + simpl. rewrite lookup_insert_eq.
      repeat (split; [first [assumption | reflexivity] |]).
      split.
      { intros t _ _ Hlt. exists (utcnow e). split; [exact Hup | exact Hlt]. }
      split; [| repeat split].
      intros j Hj. rewrite lookup_insert_ne by (symmetry; exact Hj). reflexivity.
    + rewrite (Hsame eq_refl) in *.
      repeat (split; [first [assumption | reflexivity] |]).
      split; [discriminate |]. repeat split.
  - destruct Hspec as [-> Hint]. destruct ex; simpl in Hint; try contradiction;
      inversion Hserve; subst; discriminate.
Qed.

(** *** Uniqueness of aadhaar *)

Lemma aadhaar_taken_true (a : string) (except : option Z) (us : gmap Z User.t)
    (j : Z) (v : User.t) :
  us !! j = Some v → User.aadhaar v = Some a → Some j ≠ except →
  aadhaar_taken (Some a) except us = true.
Proof.
  intros Hj Ha Hne. unfold aadhaar_taken. apply bool_decide_eq_true.
  exists j, v. auto.
Qed.

Lemma aadhaar_taken_except (a : option string) (id : Z) (us : gmap Z User.t) :
  aadhaar_taken a None us = false → aadhaar_taken a (Some id) us = false.
Proof.
  destruct a as [a |]; [| reflexivity]. unfold aadhaar_taken.
  rewrite !bool_decide_eq_false. intros Hno (j & v & Hj & Hne & Ha).
  apply Hno. exists j, v. auto.
Qed.

Lemma aadhaar_unique_insert (us : gmap Z User.t) (id : Z) (row : User.t) :
  aadhaar_unique us →
  aadhaar_taken (User.aadhaar row) (Some id) us = false →
  aadhaar_unique (<[id := row]> us).
Proof.
  intros Huniq Hfree i j u v a Hi Hj Hu Hv.
  destruct (decide (i = id)) as [-> | Hi']; destruct (decide (j = id)) as [-> | Hj'];
    [reflexivity | | |].
  - rewrite lookup_insert_eq in Hi. rewrite lookup_insert_ne in Hj by congruence.
    inversion Hi; subst. rewrite Hu in Hfree.
    rewrite (aadhaar_taken_true a (Some id) us j v) in Hfree; [discriminate | auto ..].
    congruence.
  - rewrite lookup_insert_eq in Hj. rewrite lookup_insert_ne in Hi by congruence.
    inversion Hj; subst. rewrite Hv in Hfree.
    rewrite (aadhaar_taken_true a (Some id) us i u) in Hfree; [discriminate | auto ..].
    congruence.
  - rewrite lookup_insert_ne in Hi by congruence.
    rewrite lookup_insert_ne in Hj by congruence. eauto.
Qed.

Lemma aadhaar_unique_delete (us : gmap Z User.t) (id : Z) :
  aadhaar_unique us → aadhaar_unique (delete id us).
Proof.
  intros Huniq i j u v a Hi Hj. apply lookup_delete_Some in Hi as [_ Hi].
  apply lookup_delete_Some in Hj as [_ Hj]. eauto.
Qed.

Lemma aadhaar_own_not_taken (us : gmap Z User.t) (id : Z) (u : User.t) :
  aadhaar_unique us → us !! id = Some u →
  aadhaar_taken (User.aadhaar u) (Some id) us = false.
Proof.
  intros Huniq Hu. destruct (User.aadhaar u) as [a |] eqn:Ha; [| reflexivity].
  unfold aadhaar_taken. apply bool_decide_eq_false. intros (j & v & Hj & Hne & Hv).
  apply Hne. f_equal. eauto.
Qed.

(** A unit of work that inserts: on failure the key it drew stays drawn
    unless the database gives it back. *)
Lemma drawing_key_inv {A : Type} (e : env) (draw : state → state) (m : M A)
    (s s' : state) (r : result A) :
  drawing_key e draw m s = (r, s') →
  ∃ s1 : state,
    m s = (r, s1)
    ∧ s' = match r with
           | Ok _ => s1
           | Raise _ => if key_given_back e then s1 else draw s1
           end.
Proof.
  unfold drawing_key. destruct (m s) as [[a | ex] s1]; intros H; inversion H; subst; eauto.
Qed.

(** What the INSERT of [create_user] leaves behind. *)
Lemma add_User_spec (e : env) (name phone aadhaar : value) (s s' : state) (r : result Z) :
  add_User bind_text e name phone aadhaar s = (r, s') →
  match r with
  | Raise ex =>
      (s' = s ∨ key_given_back e = false ∧ s' = set_users (fun us => us) Z.succ s)
      ∧ internal ex
  | Ok id =>
      ∃ row : User.t,
        s' = set_users (insert id row) Z.succ s
        ∧ bind_text 12 aadhaar = Some (User.aadhaar row)
        ∧ aadhaar_taken (User.aadhaar row) None (users s) = false
        ∧ users s !! id = None
  end.
Proof.
  intros H. unfold add_User in H. apply drawing_key_inv in H as (s1 & H & ->).
  assert (Hraise : ∀ ex : exn, internal ex →
            ((if key_given_back e then s else set_users (fun us => us) Z.succ s) = s
             ∨ key_given_back e = false
               ∧ (if key_given_back e then s else set_users (fun us => us) Z.succ s)
                 = set_users (fun us => us) Z.succ s)
            ∧ internal ex).
  { intros ex Hi. split; [| exact Hi]. destruct (key_given_back e); auto. }
  revert H. unfold bind_not_null, bind_nullable, bind, ret, raise, gets, modify.
  destruct (bind_text 120 name) as [[nm |] |];
    try (intros H; inversion H; subst; apply Hraise; exact I).
  destruct (bind_text 15 phone) as [[ph |] |];
    try (intros H; inversion H; subst; apply Hraise; exact I).
  destruct (bind_text 12 aadhaar) as [ad |];
    try (intros H; inversion H; subst; apply Hraise; exact I).
  destruct (aadhaar_taken ad None (users s)) eqn:Htaken;
    try (intros H; inversion H; subst; apply Hraise; exact I).
  destruct (bool_decide (is_Some (users s !! users_seq s))) eqn:Hpk;
    intros H; inversion H; subst; [apply Hraise; exact I |].
  eexists. split; [reflexivity |]. simpl. split; [reflexivity |]. split; [exact Htaken |].
  apply bool_decide_eq_false in Hpk. apply eq_None_not_Some. exact Hpk.
Qed.

Lemma create_user_spec (e : env) (req : request) (data : value) (s s' : state)
    (r : result (value * Z)) :
  json req = Json data →
  create_user bind_text e req s = (r, s') →
  match r with
  | Raise ex =>
      (s' = s ∨ key_given_back e = false ∧ s' = set_users (fun us => us) Z.succ s)
      ∧ internal ex
  | Ok (body, code) =>
      ∃ (name phone aadhaar : value) (id : Z),
        getitem data "name" = Ok name
        ∧ getitem data "phone" = Ok phone
        ∧ dict_get data "aadhaar" = Ok aadhaar
        ∧ add_User bind_text e name phone aadhaar s = (Ok id, s')
        ∧ body = VDict [("status", VStr "success"); ("user_id", VInt id)]
        ∧ code = 201
  end.
Proof.
  intros Hjson. unfold create_user, request_json. rewrite Hjson.
  unfold bind at 1. unfold ret at 1. unfold bind at 1. unfold lift at 1.
  destruct (getitem data "name") as [name | ex] eqn:Hname;
    [| intros H; inversion H; split; [left; reflexivity |];
       destruct data; simpl in Hname; try (destruct (dict_lookup _ _));
       inversion Hname; exact I].
  unfold bind at 1. unfold lift at 1.
  destruct (getitem data "phone") as [phone | ex] eqn:Hphone;
    [| intros H; inversion H; split; [left; reflexivity |];
       destruct data; simpl in Hphone; try (destruct (dict_lookup _ _));
       inversion Hphone; exact I].
  unfold bind at 1. unfold lift at 1.
  destruct (dict_get data "aadhaar") as [aadhaar | ex] eqn:Haadhaar;
    [| intros H; inversion H; split; [left; reflexivity |];
       destruct data; simpl in Haadhaar; inversion Haadhaar; exact I].
  intros H. apply bind_inv in H as [(id & s1 & Hadd & H) | (ex & Hadd & ->)].
  - inversion H; subst. exists name, phone, aadhaar, id.
    repeat (split; [first [assumption | reflexivity] |]). reflexivity.
  - apply add_User_spec in Hadd. exact Hadd.
Qed.

(** Computations that never write the User table, built up along the
    structure of the monad. *)
Lemma keeps_ret {A : Type} (a : A) : keeps_users (ret a).
Proof. intros s. reflexivity. Qed.

Lemma keeps_raise {A : Type} (ex : exn) : keeps_users (raise (A := A) ex).
Proof. intros s. reflexivity. Qed.

Lemma keeps_gets {A : Type} (f : state → A) : keeps_users (gets f).
Proof. intros s. reflexivity. Qed.

Lemma keeps_bind {A B : Type} (m : M A) (f : A → M B) :
  keeps_users m → (∀ a : A, keeps_users (f a)) → keeps_users (bind m f).
Proof.
  intros Hm Hf s. unfold bind. specialize (Hm s).
  destruct (m s) as [[a | ex] s1]; simpl in *; [| exact Hm].
  rewrite (Hf a s1). exact Hm.
Qed.

Lemma keeps_set_documents (f : gmap Z Document.t → gmap Z Document.t) (g : Z → Z) :
  keeps_users (modify (set_documents f g)).
Proof. intros s. reflexivity. Qed.

Lemma keeps_set_faces (f : gmap Z Face.t → gmap Z Face.t) (g : Z → Z) :
  keeps_users (modify (set_faces f g)).
Proof. intros s. reflexivity. Qed.

Lemma keeps_add_put (p : s3_put) : keeps_users (modify (add_put p)).
Proof. intros s. reflexivity. Qed.

Lemma keeps_multidict_getitem {A : Type} (d : list (string * A)) (k : string) :
  keeps_users (multidict_getitem d k).
Proof. unfold multidict_getitem. destruct (dict_lookup k d); [apply keeps_ret | apply keeps_raise]. Qed.

Lemma keeps_bind_not_null (n : nat) (v : value) : keeps_users (bind_not_null bind_text n v).
Proof.
  unfold bind_not_null. destruct (bind_text n v) as [[x |] |];
    [apply keeps_ret | apply keeps_raise | apply keeps_raise].
Qed.

Lemma keeps_sort_tables (table : string) : keeps_users (sort_tables table).
Proof. unfold sort_tables. destruct (forallb _ _); [apply keeps_ret | apply keeps_raise]. Qed.

Lemma keeps_drawing_key {A : Type} (e : env) (draw : state → state) (m : M A) :
  (∀ s : state, users (draw s) = users s) → keeps_users m → keeps_users (drawing_key e draw m).
Proof.
  intros Hdraw Hm s. unfold drawing_key. specialize (Hm s).
  destruct (m s) as [[a | ex] s1]; simpl in *; [exact Hm |].
  destruct (key_given_back e); [exact Hm |]. rewrite Hdraw. exact Hm.
Qed.

Create HintDb keeps.
#[local] Hint Resolve keeps_ret keeps_raise keeps_gets keeps_bind keeps_set_documents
  keeps_set_faces keeps_add_put keeps_multidict_getitem keeps_bind_not_null
  keeps_sort_tables : keeps.

Lemma keeps_upload_to_supabase (e : env) (file : FileStorage) (path : string) :
  keeps_users (upload_to_supabase S3_ENDPOINT S3_BUCKET secure_filename e file path).
Proof.
  unfold upload_to_supabase, s3_upload_fileobj.
  apply keeps_bind; [destruct (s3_up e) |]; auto with keeps.
Qed.

Lemma keeps_add_Document (e : env) (user_id : Z) (doc_type doc_url : string) :
  keeps_users (add_Document bind_text e user_id doc_type doc_url).
Proof.
  unfold add_Document. apply keeps_bind; [auto with keeps | intros _].
  apply keeps_drawing_key; [reflexivity |].
  repeat (apply keeps_bind; [auto with keeps | intros ?]).
  destruct (bool_decide _); auto with keeps.
Qed.

Lemma keeps_add_Face (e : env) (user_id : Z) (face_url : string) :
  keeps_users (add_Face bind_text e user_id face_url).
Proof.
  unfold add_Face. apply keeps_bind; [auto with keeps | intros _].
  apply keeps_drawing_key; [reflexivity |].
  repeat (apply keeps_bind; [auto with keeps | intros ?]).
  destruct (bool_decide _); auto with keeps.
Qed.

#[local] Hint Resolve keeps_upload_to_supabase keeps_add_Document keeps_add_Face : keeps.

Lemma serve_state (e : env) (rt : route) (req : request) (s : state) :
  (server e rt req s).2 = (dispatch S3_ENDPOINT S3_BUCKET secure_filename bind_text e rt req s).2.
Proof.
  unfold serve. destruct (dispatch _ _ _ _ _ _ _ _) as [[[body code] | []] s']; reflexivity.
Qed.

Lemma keeps_upload_document (e : env) (req : request) (id : Z) :
  keeps_users (upload_document S3_ENDPOINT S3_BUCKET secure_filename bind_text e req id).
Proof.
  unfold upload_document. apply keeps_bind; [apply keeps_gets |].
  intros [u |]; [| apply keeps_ret].
  destruct (_ || _); [apply keeps_ret |].
  repeat (apply keeps_bind; [auto with keeps | intros ?]). apply keeps_ret.
Qed.

Lemma keeps_upload_face (e : env) (req : request) (id : Z) :
  keeps_users (upload_face S3_ENDPOINT S3_BUCKET secure_filename bind_text e req id).
Proof.
  unfold upload_face. apply keeps_bind; [apply keeps_gets |].
  intros [u |]; [| apply keeps_ret].
  destruct (negb _); [apply keeps_ret |].
  repeat (apply keeps_bind; [auto with keeps | intros ?]). apply keeps_ret.
Qed.

(** Routes whose handlers never write the User table. *)
Lemma uploads_keep_users (e : env) (req : request) (id : Z) (s : state) :
  users (server e (POST_documents id) req s).2 = users s
  ∧ users (server e (POST_face id) req s).2 = users s.
Proof.
  rewrite !serve_state. split; [apply keeps_upload_document | apply keeps_upload_face].
Qed.

Lemma delete_document_keeps_users (e : env) (req : request) (id : Z) (s : state) :
  users (server e (DELETE_document id) req s).2 = users s.
Proof.
  rewrite serve_state. unfold dispatch, delete_document.
  apply keeps_bind; [apply keeps_gets |]. intros [d |]; [| apply keeps_ret].
  unfold delete_Document. repeat (apply keeps_bind; [auto with keeps | intros ?]).
  apply keeps_ret.
Qed.

Lemma delete_face_keeps_users (e : env) (req : request) (id : Z) (s : state) :
  users (server e (DELETE_face id) req s).2 = users s.
Proof.
  rewrite serve_state. unfold dispatch, delete_face.
  apply keeps_bind; [apply keeps_gets |]. intros [f |]; [| apply keeps_ret].
  unfold delete_Face. repeat (apply keeps_bind; [auto with keeps | intros ?]).
  apply keeps_ret.
Qed.

Lemma serve_preserves_aadhaar_unique (e : env) (rt : route) (req : request) (s : state) :
  aadhaar_unique (users s) →
  aadhaar_unique (users (server e rt req s).2).
Proof.
  intros Huniq. destruct rt as [| | id | id | id | id | id | id | id | id | id].
  - exact Huniq.
  - unfold serve, dispatch.
    destruct (create_user bind_text e req s) as [r s'] eqn:Hc.
    destruct (json req) as [data | code] eqn:Hjson.
    + pose proof (create_user_spec _ _ _ _ _ _ Hjson Hc) as Hspec.
      destruct r as [[body code] | ex].
      * destruct Hspec as (name & phone & aadhaar & uid & _ & _ & _ & Hadd & _).
        apply add_User_spec in Hadd. simpl in Hadd.
        destruct Hadd as (row & -> & _ & Hfree & _). simpl.
        apply aadhaar_unique_insert; [exact Huniq |].
        apply aadhaar_taken_except. exact Hfree.
      * destruct Hspec as [[-> | [_ ->]] _]; destruct ex; exact Huniq.
    + unfold create_user, request_json in Hc. rewrite Hjson in Hc.
      inversion Hc; subst. exact Huniq.
  - run_handler. destruct (users s !! id); exact Huniq.
  - unfold serve, dispatch.
    destruct (update_user bind_text e req id s) as [r s'] eqn:Hupd.
    destruct (users s !! id) as [u |] eqn:Hu.
    + destruct (json req) as [data | code] eqn:Hjson.
      * pose proof (update_user_commit _ _ _ _ _ _ _ _ Hu Hjson Hupd) as Hspec.
        destruct r as [[body code] | ex].
        -- destruct Hspec as (_ & _ & Hc).
           pose proof (commit_User_exact _ _ _ _ _ _ _ _ _ Hc) as Hspec. simpl in Hspec.
           destruct Hspec as (u' & -> & _ & _ & _ & _ & _ & _ & _ & _ & Hkeep & Hfree).
           simpl.
           destruct (changed _ _ || changed _ _ || changed _ _) eqn:Hdirty; [| exact Huniq].
           simpl. apply aadhaar_unique_insert; [exact Huniq |].
           destruct (changed (payload_field data "aadhaar") (User.aadhaar u)) eqn:Ha.
           ++ apply Hfree; reflexivity.
           ++ rewrite (Hkeep eq_refl). apply aadhaar_own_not_taken; assumption.
        -- destruct Hspec as [-> _]. destruct ex; exact Huniq.
      * unfold update_user, User_query_get, request_json, bind, gets in Hupd.
        rewrite Hu, Hjson in Hupd. inversion Hupd; subst. exact Huniq.
    + unfold update_user, User_query_get, bind, gets in Hupd. rewrite Hu in Hupd.
      inversion Hupd; subst. exact Huniq.
  - run_handler. destruct (users s !! id); simpl; [| exact Huniq].
    apply aadhaar_unique_delete. exact Huniq.
  - rewrite (proj1 (uploads_keep_users e req id s)). exact Huniq.
  - exact Huniq.
  - rewrite delete_document_keeps_users. exact Huniq.
  - rewrite (proj2 (uploads_keep_users e req id s)). exact Huniq.
  - exact Huniq.
  - rewrite delete_face_keeps_users. exact Huniq.
Qed.

(** C3.  The UNIQUE constraint that the User model declares on [aadhaar]
    holds in every state the server reaches, whatever the driver does
    with the values it is given: no two User rows share a non-NULL
    aadhaar.  It is the database that keeps it: a POST /users whose
    aadhaar would be stored as a value that a row already holds fails at
    the commit, is answered 500 instead of 201, and leaves the User table
    as it was. *)
Theorem aadhaar_stays_unique (s : state) :
  reachable S3_ENDPOINT S3_BUCKET secure_filename bind_text s →
  aadhaar_unique (users s)
  ∧ ∀ (e : env) (req : request) (d : list (string * value)) (v : value) (i : Z)
      (u : User.t) (a : string),
      users s !! i = Some u → User.aadhaar u = Some a →
      json req = Json (VDict d) → dict_lookup "aadhaar" d = Some v →
      (∀ c : option string, bind_text 12 v = Some c → c = Some a) →
      status_code (server e POST_users req s).1 = 500
      ∧ status_code (server e POST_users req s).1 ≠ 201
      ∧ users (server e POST_users req s).2 = users s.
Proof.
  intros Hreach. split.
  - induction Hreach as [| e rt req s Hreach IH].
    + intros i j u v a Hi. unfold init in Hi. simpl in Hi.
      rewrite lookup_empty in Hi. discriminate.
    + apply serve_preserves_aadhaar_unique; assumption.
  - clear Hreach. intros e req d v i u a Hi Ha Hjson Hd Hstored.
    unfold serve, dispatch.
    destruct (create_user bind_text e req s) as [r s'] eqn:Hc.
    pose proof (create_user_spec _ _ _ _ _ _ Hjson Hc) as Hspec.
    destruct r as [[body code] | ex].
    + exfalso. destruct Hspec as (name & phone & aadhaar & uid & _ & _ & Hget & Hadd & _).
      simpl in Hget. rewrite Hd in Hget. inversion Hget; subst aadhaar.
      apply add_User_spec in Hadd. simpl in Hadd.
      destruct Hadd as (row & _ & Hbind & Hfree & _).
      apply Hstored in Hbind. rewrite Hbind in Hfree.
      rewrite (aadhaar_taken_true a None (users s) i u) in Hfree; [discriminate | auto ..].
    + destruct Hspec as [[-> | [_ ->]] Hint]; destruct ex; simpl in Hint; try contradiction;
        simpl; repeat split; discriminate.
Qed.

End Properties.

(** * The properties at concrete requests *)

(** An upload for user 1 on the empty database. *)
Lemma upload_for_unknown_user_witness :
  users init !! 1 = None
  ∧ ex_server (at_time 0) (POST_documents 1) ex_upload init = (not_found "User", init)
  ∧ ex_server (at_time 0) (POST_face 1) ex_upload init = (not_found "User", init).
Proof.
  split; [reflexivity |].
  apply (upload_for_unknown_user _ _ _ _ (at_time 0) ex_upload 1 init). reflexivity.
Defined.

(** A request with no form field at all for user 1, unknown and then known. *)
Lemma user_check_precedes_validation_witness :
  users init !! 1 = None
  ∧ multidict_contains (files no_body) "file" = false
  ∧ (ex_server (at_time 0) (POST_documents 1) no_body init).1 = not_found "User"
  ∧ (ex_server (at_time 0) (POST_face 1) no_body init).1 = not_found "User"
  ∧ status_code (ex_server (at_time 0) (POST_documents 1) no_body ex_state1).1 = 400.
Proof.
  pose proof (user_check_precedes_validation
                "https://ref.supabase.co/storage/v1/s3" "kyc" (fun f => f) verbatim_text
                (at_time 0) no_body 1 init eq_refl) as [Hdoc Hface].
  destruct (Hdoc (or_introl eq_refl)) as [Hdoc404 Hdoc400].
  destruct (Hface eq_refl) as [Hface404 _].
  split; [reflexivity |]. split; [reflexivity |].
  split; [exact Hdoc404 |]. split; [exact Hface404 |].
  apply (Hdoc400 ex_user ex_state1). reflexivity.
Defined.

(** Reads, updates and deletes of row 1 on the empty database. *)
Lemma missing_row_is_404_witness :
  users init !! 1 = None ∧ documents init !! 1 = None ∧ faces init !! 1 = None
  ∧ ex_server (at_time 0) (GET_user 1) no_body init = (not_found "User", init)
  ∧ ex_server (at_time 0) (PUT_user 1) no_body init = (not_found "User", init)
  ∧ ex_server (at_time 0) (DELETE_user 1) no_body init = (not_found "User", init)
  ∧ ex_server (at_time 0) (DELETE_document 1) no_body init = (not_found "Document", init)
  ∧ ex_server (at_time 0) (DELETE_face 1) no_body init = (not_found "Face", init).
Proof.
  pose proof (missing_row_is_404
                "https://ref.supabase.co/storage/v1/s3" "kyc" (fun f => f) verbatim_text
                (at_time 0) no_body 1 init) as (Hu & Hd & Hf).
  destruct (Hu eq_refl) as (Hget & Hput & Hdel).
  repeat (split; [first [reflexivity | assumption] |]).
  exact (Hf eq_refl).
Defined.

(** User 1 is deleted while document 1 still refers to it. *)
Lemma delete_user_leaves_orphans_witness :
  users ex_state2 !! 1 = Some ex_user
  ∧ (Document.user_id <$> documents ex_state2 !! 1) = Some 1
  ∧ ∃ s' : state,
      (ex_server (at_time 120) (DELETE_user 1) no_body ex_state2).2 = s'
      ∧ status_code (ex_server (at_time 120) (DELETE_user 1) no_body ex_state2).1 = 200
      ∧ users s' !! 1 = None
      ∧ (Document.user_id <$> documents s' !! 1) = Some 1.
Proof.
  split; [reflexivity |]. split; [reflexivity |].
  destruct (delete_user_leaves_orphans
              "https://ref.supabase.co/storage/v1/s3" "kyc" (fun f => f) verbatim_text
              (at_time 120) no_body 1 ex_user ex_state2 eq_refl)
    as (s' & Hserve & Husers & Hdocs & _).
  exists s'. unfold ex_server. rewrite Hserve. simpl.
  split; [reflexivity |]. split; [reflexivity |].
  rewrite Husers, Hdocs. split; [apply lookup_delete_eq | reflexivity].
Defined.

(** The projection of user 1. *)
Lemma get_user_projection_witness :
  users ex_state1 !! 1 = Some ex_user
  ∧ ∃ d : list (string * value),
      (ex_server (at_time 120) (GET_user 1) no_body ex_state1).1
      = {| status_code := 200; get_json := Some (VDict d) |}
      ∧ d.*1 = ["id"; "name"; "phone"; "aadhaar"; "created_at"].
Proof.
  split; [reflexivity |].
  destruct (get_user_projection
              "https://ref.supabase.co/storage/v1/s3" "kyc" (fun f => f) verbatim_text
              (at_time 120) no_body 1 ex_user ex_state1 eq_refl)
    as (d & Hserve & Hkeys & _).
  exists d. unfold ex_server. rewrite Hserve. split; [reflexivity | exact Hkeys].
Defined.

(** C2 as stated fails: the document upload without [doc_type] for a user
    that does not exist is answered 404, not 400. *)
Lemma missing_doc_type_for_unknown_user :
  users init !! 1 = None
  ∧ multidict_contains (form ex_upload_no_type) "doc_type" = false
  ∧ status_code (ex_server (at_time 0) (POST_documents 1) ex_upload_no_type init).1 = 404
  ∧ status_code (ex_server (at_time 0) (POST_documents 1) ex_upload_no_type init).1 ≠ 400.
Proof. repeat split. vm_compute. discriminate. Qed.

(** The same upload for the existing user 1, a face upload without a file,
    and a registration without a name. *)
Lemma missing_field_has_no_side_effect_witness :
  users ex_state1 !! 1 = Some ex_user
  ∧ multidict_contains (form ex_upload_no_type) "doc_type" = false
  ∧ multidict_contains (files no_body) "file" = false
  ∧ dict_lookup "name" [("phone", VStr "9111111111")] = None
  ∧ ex_server (at_time 120) (POST_documents 1) ex_upload_no_type ex_state1
    = ({| status_code := 400;
          get_json := Some (VDict [("error", VStr "File and doc_type required")]) |},
       ex_state1)
  ∧ ex_server (at_time 120) (POST_face 1) no_body ex_state1
    = ({| status_code := 400;
          get_json := Some (VDict [("error", VStr "File required")]) |}, ex_state1)
  ∧ (ex_server (at_time 120) POST_users ex_nameless ex_state1).2 = ex_state1.
Proof.
  do 4 (split; [reflexivity |]).
  split; [| split].
  - apply (proj1 (proj1 (missing_field_has_no_side_effect
                            "https://ref.supabase.co/storage/v1/s3" "kyc" (fun f => f)
                            verbatim_text (at_time 120) ex_upload_no_type 1 ex_state1)
                    ex_user eq_refl)).
    right. reflexivity.
  - apply (proj2 (proj1 (missing_field_has_no_side_effect
                            "https://ref.supabase.co/storage/v1/s3" "kyc" (fun f => f)
                            verbatim_text (at_time 120) no_body 1 ex_state1)
                    ex_user eq_refl)).
    reflexivity.
  - apply (proj2 (proj2 (missing_field_has_no_side_effect
                            "https://ref.supabase.co/storage/v1/s3" "kyc" (fun f => f)
                            verbatim_text (at_time 120) ex_nameless 1 ex_state1))
             [("phone", VStr "9111111111")] eq_refl).
    left. reflexivity.
Defined.

(** A second registration with the aadhaar of user 1. *)
Lemma aadhaar_stays_unique_witness :
  reachable "https://ref.supabase.co/storage/v1/s3" "kyc" (fun f => f) verbatim_text ex_state1
  ∧ users ex_state1 !! 1 = Some ex_user
  ∧ verbatim_text 12 (VStr "123412341234") = Some (Some "123412341234")
  ∧ aadhaar_unique (users ex_state1)
  ∧ status_code (ex_server (at_time 130) POST_users ex_duplicate ex_state1).1 = 500
  ∧ users (ex_server (at_time 130) POST_users ex_duplicate ex_state1).2 = users ex_state1.
Proof.
  assert (Hr : reachable "https://ref.supabase.co/storage/v1/s3" "kyc" (fun f => f)
                 verbatim_text ex_state1).
  { apply reachable_serve. apply reachable_init. }
  destruct (aadhaar_stays_unique
              "https://ref.supabase.co/storage/v1/s3" "kyc" (fun f => f) verbatim_text
              ex_state1 Hr) as [Huniq Hdup].
  assert (Hstored : ∀ c : option string,
            verbatim_text 12 (VStr "123412341234") = Some c → c = Some "123412341234").
  { intros c Hc. vm_compute in Hc. congruence. }
  destruct (Hdup (at_time 130) ex_duplicate
              [("name", VStr "Ravi"); ("phone", VStr "9111111111");
               ("aadhaar", VStr "123412341234")]
              (VStr "123412341234") 1 ex_user "123412341234"
              eq_refl eq_refl eq_refl eq_refl Hstored)
    as (H500 & _ & Hsame).
  repeat (split; [first [assumption | reflexivity] |]). exact Hsame.
Defined.

(** C5 as stated fails: user 1 was last updated at time 150; at time 200 a
    PUT that repeats the stored phone, and one with an empty body, are both
    answered 200 "updated", and [updated_at] is still 150. *)
Lemma unchanged_patch_keeps_updated_at :
  (User.updated_at <$> users ex_state3 !! 1) = Some (Some 150)
  ∧ (ex_server (at_time 200) (PUT_user 1) ex_patch ex_state3).1
    = {| status_code := 200; get_json := Some (VDict [("status", VStr "updated")]) |}
  ∧ (User.updated_at
       <$> users (ex_server (at_time 200) (PUT_user 1) ex_patch ex_state3).2 !! 1)
    = Some (Some 150)
  ∧ (ex_server (at_time 200) (PUT_user 1) (json_request (VDict [])) ex_state3).1
    = {| status_code := 200; get_json := Some (VDict [("status", VStr "updated")]) |}
  ∧ (User.updated_at
       <$> users (ex_server (at_time 200) (PUT_user 1) (json_request (VDict [])) ex_state3).2 !! 1)
    = Some (Some 150).
Proof. repeat split. Qed.

(** The phone of user 1 is changed at time 150. *)
Lemma update_user_is_partial_patch_witness :
  stores_verbatim verbatim_text
  ∧ users ex_state1 !! 1 = Some ex_user
  ∧ status_code (ex_server (at_time 150) (PUT_user 1) ex_patch ex_state1).1 = 200
  ∧ ∃ u' : User.t,
      users ex_state3 !! 1 = Some u'
      ∧ User.phone u' = "9999999999"
      ∧ User.name u' = "Asha"
      ∧ User.aadhaar u' = Some "123412341234"
      ∧ User.updated_at u' = Some 150.
Proof.
  assert (Hv : stores_verbatim verbatim_text).
  { split.
    - intros n s c. simpl. destruct (bool_decide _); congruence.
    - intros n c. simpl. congruence. }
  split; [exact Hv |]. split; [reflexivity |]. split; [reflexivity |].
  destruct (update_user_is_partial_patch
              "https://ref.supabase.co/storage/v1/s3" "kyc" (fun f => f) verbatim_text
              (at_time 150) ex_patch (VDict [("phone", VStr "9999999999")]) 1 ex_user
              ex_state1 ex_state3
              (ex_server (at_time 150) (PUT_user 1) ex_patch ex_state1).1
              eq_refl eq_refl eq_refl eq_refl)
    as (u' & Hu' & _ & _ & _ & Hverbatim & _ & _ & _ & Hupdated & _).
  destruct (Hverbatim Hv) as (Hphone & Hname & Haadhaar).
  exists u'. simpl in Hphone, Hname, Haadhaar, Hupdated.
  split; [exact Hu' |]. split; [congruence |]. split; [congruence |].
  split; [exact Haadhaar | exact Hupdated].
Defined.

(** C6 as stated fails: on the empty database both listings for user 1 are
    answered 200 with an empty array, not 404. *)
Lemma listing_for_unknown_user_is_200 :
  users init !! 1 = None
  ∧ ex_server (at_time 0) (GET_documents 1) no_body init
    = ({| status_code := 200; get_json := Some (VList []) |}, init)
  ∧ ex_server (at_time 0) (GET_face 1) no_body init
    = ({| status_code := 200; get_json := Some (VList []) |}, init).
Proof. repeat split. Qed.

(** The listing of the documents of user 1 after one upload. *)
Lemma listing_never_resolves_user_witness :
  ∃ l : list value,
    ex_server (at_time 120) (GET_documents 1) no_body ex_state2
    = ({| status_code := 200; get_json := Some (VList l) |}, ex_state2)
    ∧ VDict [("id", VInt 1); ("doc_type", VStr "pan");
             ("doc_url",
              VStr "https://ref.supabase.co/storage/v1/object/public/kyc/documents/1/pan/id.png");
             ("status", VStr "pending"); ("uploaded_at", VDateTime 110)] ∈ l.
Proof.
  destruct (listing_never_resolves_user
              "https://ref.supabase.co/storage/v1/s3" "kyc" (fun f => f) verbatim_text
              (at_time 120) no_body 1 ex_state2)
    as [(l & Hserve & _ & Hmem & _) _].
  exists l. split; [exact Hserve |].
  apply Hmem.
  exists 1, (Document.mk 1 "pan"
               "https://ref.supabase.co/storage/v1/object/public/kyc/documents/1/pan/id.png"
               (Some "pending") (Some 110)).
  repeat split.
Defined.

(** * Further properties of the handlers *)

Section Coverage.

Variable S3_ENDPOINT : string.
Variable S3_BUCKET : string.
Variable secure_filename : string → string.
Variable bind_text : nat → value → option (option string).

Abbreviation server := (serve S3_ENDPOINT S3_BUCKET secure_filename bind_text).
Abbreviation reached := (reachable S3_ENDPOINT S3_BUCKET secure_filename bind_text).

(** *** What the pieces of an upload do *)

Lemma upload_to_supabase_eq (e : env) (file : FileStorage) (path : string) (s : state) :
  upload_to_supabase S3_ENDPOINT S3_BUCKET secure_filename e file path s
  = if s3_up e
    then (Ok (public_url S3_ENDPOINT S3_BUCKET (object_key secure_filename path file)),
          add_put (object_put S3_BUCKET secure_filename path file) s)
    else (Raise S3UploadFailedError, s).
Proof.
  unfold upload_to_supabase, s3_upload_fileobj, bind, ret, raise, modify.
  destruct (s3_up e); reflexivity.
Qed.

(** The foreign keys of [Document] and [Face] name a table [users] that
    the metadata does not hold ([User] is mapped to [user]): no unit of
    work on these two models gets past the sort of the tables, and the
    session is left as it was. *)
Lemma add_Document_eq (e : env) (user_id : Z) (doc_type doc_url : string) (s : state) :
  add_Document bind_text e user_id doc_type doc_url s = (Raise NoReferencedTableError, s).
Proof. reflexivity. Qed.

Lemma add_Face_eq (e : env) (user_id : Z) (face_url : string) (s : state) :
  add_Face bind_text e user_id face_url s = (Raise NoReferencedTableError, s).
Proof. reflexivity. Qed.

Lemma delete_document_eq (doc_id : Z) (s : state) :
  delete_document doc_id s
  = match documents s !! doc_id with
    | Some _ => (Raise NoReferencedTableError, s)
    | None => (Ok (VDict [("error", VStr "Document not found")], 404), s)
    end.
Proof.
  unfold delete_document, Document_query_get, bind, gets.
  destruct (documents s !! doc_id); reflexivity.
Qed.

Lemma delete_face_eq (face_id : Z) (s : state) :
  delete_face face_id s
  = match faces s !! face_id with
    | Some _ => (Raise NoReferencedTableError, s)
    | None => (Ok (VDict [("error", VStr "Face not found")], 404), s)
    end.
Proof.
  unfold delete_face, Face_query_get, bind, gets.
  destruct (faces s !! face_id); reflexivity.
Qed.

Lemma multidict_contains_false {A : Type} (d : list (string * A)) (k : string) :
  multidict_contains d k = false ↔ dict_lookup k d = None.
Proof.
  unfold multidict_contains. rewrite bool_decide_eq_false.
  destruct (dict_lookup k d); split; intros H; try done.
  destruct H. eauto.
Qed.

Lemma multidict_contains_true {A : Type} (d : list (string * A)) (k : string) (v : A) :
  dict_lookup k d = Some v → multidict_contains d k = true.
Proof. intros H. unfold multidict_contains. rewrite H. apply bool_decide_eq_true. eauto. Qed.

Lemma upload_document_eq (e : env) (req : request) (id : Z) (u : User.t)
    (file : FileStorage) (doc_type : string) (s : state) :
  users s !! id = Some u →
  dict_lookup "file" (files req) = Some file →
  dict_lookup "doc_type" (form req) = Some doc_type →
  upload_document S3_ENDPOINT S3_BUCKET secure_filename bind_text e req id s
  = if s3_up e
    then (Raise NoReferencedTableError,
          add_put (object_put S3_BUCKET secure_filename (document_path id doc_type) file) s)
    else (Raise S3UploadFailedError, s).
Proof.
  intros Hu Hfile Htype.
  unfold upload_document, User_query_get. unfold bind at 1. unfold gets. rewrite Hu.
  rewrite (multidict_contains_true _ _ _ Hfile), (multidict_contains_true _ _ _ Htype).
  cbn [negb orb]. unfold multidict_getitem. rewrite Hfile, Htype.
  unfold bind at 1. unfold ret at 1. unfold bind at 1. unfold ret at 1.
  unfold bind at 1. rewrite upload_to_supabase_eq.
  destruct (s3_up e); [| reflexivity].
  unfold bind. rewrite add_Document_eq. reflexivity.
Qed.

Lemma upload_face_eq (e : env) (req : request) (id : Z) (u : User.t)
    (file : FileStorage) (s : state) :
  users s !! id = Some u →
  dict_lookup "file" (files req) = Some file →
  upload_face S3_ENDPOINT S3_BUCKET secure_filename bind_text e req id s
  = if s3_up e
    then (Raise NoReferencedTableError,
          add_put (object_put S3_BUCKET secure_filename (face_path id) file) s)
    else (Raise S3UploadFailedError, s).
Proof.
  intros Hu Hfile.
  unfold upload_face, User_query_get. unfold bind at 1. unfold gets. rewrite Hu.
  rewrite (multidict_contains_true _ _ _ Hfile). cbn [negb].
  unfold multidict_getitem. rewrite Hfile.
  unfold bind at 1. unfold ret at 1.
  unfold bind at 1. rewrite upload_to_supabase_eq.
  destruct (s3_up e); [| reflexivity].
  unfold bind. rewrite add_Face_eq. reflexivity.
Qed.

(** Every way a document upload can end. *)
Lemma upload_document_cases (e : env) (req : request) (id : Z) (s s' : state)
    (r : result (value * Z)) :
  upload_document S3_ENDPOINT S3_BUCKET secure_filename bind_text e req id s = (r, s') →
  (users s !! id = None ∧ r = Ok (VDict [("error", VStr "User not found")], 404) ∧ s' = s)
  ∨ (is_Some (users s !! id)
     ∧ (dict_lookup "file" (files req) = None ∨ dict_lookup "doc_type" (form req) = None)
     ∧ r = Ok (VDict [("error", VStr "File and doc_type required")], 400) ∧ s' = s)
  ∨ ∃ (file : FileStorage) (doc_type : string),
      is_Some (users s !! id)
      ∧ dict_lookup "file" (files req) = Some file
      ∧ dict_lookup "doc_type" (form req) = Some doc_type
      ∧ ((s3_up e = false ∧ r = Raise S3UploadFailedError ∧ s' = s)
         ∨ (s3_up e = true ∧ r = Raise NoReferencedTableError
            ∧ s' = add_put
                     (object_put S3_BUCKET secure_filename (document_path id doc_type) file)
                     s)).
Proof.
  destruct (users s !! id) as [u |] eqn:Hu.
  - destruct (dict_lookup "file" (files req)) as [file |] eqn:Hfile.
    + destruct (dict_lookup "doc_type" (form req)) as [doc_type |] eqn:Htype.
      * rewrite (upload_document_eq e req id u file doc_type s Hu Hfile Htype).
        intros H. right. right. exists file, doc_type.
        split; [eauto |]. split; [reflexivity |]. split; [reflexivity |].
        destruct (s3_up e); inversion H; auto.
      * unfold upload_document, User_query_get. unfold bind at 1. unfold gets. rewrite Hu.
        rewrite (proj2 (multidict_contains_false (form req) "doc_type") Htype).
        rewrite orb_true_r. intros H. inversion H. right. left. eauto 6.
    + unfold upload_document, User_query_get. unfold bind at 1. unfold gets. rewrite Hu.
      rewrite (proj2 (multidict_contains_false (files req) "file") Hfile).
      cbn [negb orb]. intros H. inversion H. right. left. eauto 6.
  - unfold upload_document, User_query_get. unfold bind at 1. unfold gets. rewrite Hu.
    intros H. inversion H. left. auto.
Qed.

(** Every way a face upload can end. *)
Lemma upload_face_cases (e : env) (req : request) (id : Z) (s s' : state)
    (r : result (value * Z)) :
  upload_face S3_ENDPOINT S3_BUCKET secure_filename bind_text e req id s = (r, s') →
  (users s !! id = None ∧ r = Ok (VDict [("error", VStr "User not found")], 404) ∧ s' = s)
  ∨ (is_Some (users s !! id)
     ∧ dict_lookup "file" (files req) = None
     ∧ r = Ok (VDict [("error", VStr "File required")], 400) ∧ s' = s)
  ∨ ∃ file : FileStorage,
      is_Some (users s !! id)
      ∧ dict_lookup "file" (files req) = Some file
      ∧ ((s3_up e = false ∧ r = Raise S3UploadFailedError ∧ s' = s)
         ∨ (s3_up e = true ∧ r = Raise NoReferencedTableError
            ∧ s' = add_put (object_put S3_BUCKET secure_filename (face_path id) file) s)).
Proof.
  destruct (users s !! id) as [u |] eqn:Hu.
  - destruct (dict_lookup "file" (files req)) as [file |] eqn:Hfile.
    + rewrite (upload_face_eq e req id u file s Hu Hfile).
      intros H. right. right. exists file.
      split; [eauto |]. split; [reflexivity |].
      destruct (s3_up e); inversion H; auto.
    + unfold upload_face, User_query_get. unfold bind at 1. unfold gets. rewrite Hu.
      rewrite (proj2 (multidict_contains_false (files req) "file") Hfile).
      cbn [negb]. intros H. inversion H. right. left. eauto 6.
  - unfold upload_face, User_query_get. unfold bind at 1. unfold gets. rewrite Hu.
    intros H. inversion H. left. auto.
Qed.

(** *** Every way the writes to the User table can end *)

Lemma add_User_cases (e : env) (name phone aadhaar : value) (s s' : state) (r : result Z) :
  add_User bind_text e name phone aadhaar s = (r, s') →
  match r with
  | Raise ex =>
      (s' = s ∨ key_given_back e = false ∧ s' = set_users (fun us => us) Z.succ s)
      ∧ internal ex
  | Ok id =>
      ∃ (name' phone' : string) (aadhaar' : option string),
        bind_text 120 name = Some (Some name')
        ∧ bind_text 15 phone = Some (Some phone')
        ∧ bind_text 12 aadhaar = Some aadhaar'
        ∧ aadhaar_taken aadhaar' None (users s) = false
        ∧ id = users_seq s
        ∧ users s !! id = None
        ∧ s' = set_users
                 (insert id (User.mk name' phone' aadhaar' None None (Some (utcnow e)) None))
                 Z.succ s
  end.
Proof.
  intros H. destruct r as [id | ex]; [| exact (add_User_spec bind_text _ _ _ _ _ _ _ H)].
  unfold add_User in H. apply drawing_key_inv in H as (s1 & H & ->).
  revert H. unfold bind_not_null, bind_nullable, bind, ret, raise, gets, modify.
  destruct (bind_text 120 name) as [[nm |] |]; try discriminate.
  destruct (bind_text 15 phone) as [[ph |] |]; try discriminate.
  destruct (bind_text 12 aadhaar) as [ad |]; try discriminate.
  destruct (aadhaar_taken ad None (users s)) eqn:Htaken; try discriminate.
  destruct (bool_decide (is_Some (users s !! users_seq s))) eqn:Hpk; try discriminate.
  intros H. inversion H; subst.
  exists nm, ph, ad. repeat (split; [first [reflexivity | assumption] |]).
  split; [| reflexivity].
  apply bool_decide_eq_false in Hpk. apply eq_None_not_Some. exact Hpk.
Qed.

Lemma create_user_cases (e : env) (req : request) (s s' : state) (r : result (value * Z)) :
  create_user bind_text e req s = (r, s') →
  match r with
  | Raise ex => s' = s ∨ key_given_back e = false ∧ s' = set_users (fun us => us) Z.succ s
  | Ok (body, code) =>
      ∃ (data name phone aadhaar : value),
        json req = Json data
        ∧ getitem data "name" = Ok name
        ∧ getitem data "phone" = Ok phone
        ∧ dict_get data "aadhaar" = Ok aadhaar
        ∧ add_User bind_text e name phone aadhaar s = (Ok (users_seq s), s')
        ∧ body = VDict [("status", VStr "success"); ("user_id", VInt (users_seq s))]
        ∧ code = 201
  end.
Proof.
  destruct (json req) as [data | code] eqn:Hjson.
  - intros H. pose proof (create_user_spec bind_text e req data s s' r Hjson H) as Hspec.
    destruct r as [[body code] | ex]; [| exact (proj1 Hspec)].
    destruct Hspec as (name & phone & aadhaar & id & Hn & Hp & Ha & Hadd & -> & ->).
    pose proof (add_User_cases _ _ _ _ _ _ _ Hadd) as Hc. simpl in Hc.
    destruct Hc as (nm & ph & ad & _ & _ & _ & _ & -> & _).
    exists data, name, phone, aadhaar. auto 10.
  - unfold create_user, request_json. rewrite Hjson. intros H. inversion H. left. reflexivity.
Qed.

Lemma commit_User_cases (e : env) (id : Z) (u : User.t) (p n a : option value)
    (s s' : state) (r : result unit) :
  commit_User bind_text e id u p n a s = (r, s') →
  match r with
  | Raise ex => s' = s ∧ internal ex
  | Ok _ =>
      s' = s
      ∨ ∃ (name phone : string) (aadhaar : option string),
          s' = set_users
                 (insert id
                    (User.mk name phone aadhaar (User.email u) (User.address u)
                       (User.created_at u) (Some (utcnow e))))
                 (fun k => k) s
  end.
Proof.
  unfold commit_User, bind_not_null, bind_nullable, bind, ret, raise, gets, modify.
  intros H. repeat case_match; simplify_eq; eauto 6; split; done.
Qed.

Lemma update_user_cases (e : env) (req : request) (id : Z) (s s' : state)
    (r : result (value * Z)) :
  update_user bind_text e req id s = (r, s') →
  match r with
  | Raise ex => s' = s
  | Ok (body, code) =>
      (users s !! id = None ∧ code = 404 ∧ s' = s)
      ∨ ∃ u : User.t,
          users s !! id = Some u ∧ code = 200
          ∧ (s' = s
             ∨ ∃ (name phone : string) (aadhaar : option string),
                 s' = set_users
                        (insert id
                           (User.mk name phone aadhaar (User.email u) (User.address u)
                              (User.created_at u) (Some (utcnow e))))
                        (fun k => k) s)
  end.
Proof.
  unfold update_user, User_query_get. unfold bind at 1. unfold gets.
  destruct (users s !! id) as [u |] eqn:Hu;
    [| intros H; inversion H; left; auto].
  unfold request_json. destruct (json req) as [data | code];
    [| intros H; inversion H; reflexivity].
  unfold bind at 1. unfold ret at 1. intros H.
  apply bind_assigned in H as [H | (ex & -> & -> & _)]; [| reflexivity].
  apply bind_assigned in H as [H | (ex & -> & -> & _)]; [| reflexivity].
  apply bind_assigned in H as [H | (ex & -> & -> & _)]; [| reflexivity].
  apply bind_inv in H as [([] & s1 & Hc & H) | (ex & Hc & ->)];
    apply commit_User_cases in Hc.
  - inversion H; subst. right. exists u. auto.
  - exact (proj1 Hc).
Qed.

(** *** One request, one effect *)

Lemma serve_effect (e : env) (rt : route) (req : request) (s : state) :
  effect S3_BUCKET e s (server e rt req s).2.
Proof.
  rewrite serve_state.
  destruct rt as [| | id | id | id | id | id | id | id | id | id]; simpl.
  - apply effect_none.
  - destruct (create_user bind_text e req s) as [r s'] eqn:Hc.
    apply create_user_cases in Hc. destruct r as [[body code] | ex]; simpl.
    + destruct Hc as (data & name & phone & aadhaar & _ & _ & _ & _ & Hadd & _).
      apply add_User_cases in Hadd. simpl in Hadd.
      destruct Hadd as (nm & ph & ad & _ & _ & _ & Hfree & _ & Hpk & ->).
      apply effect_user_added; assumption.
    + destruct Hc as [-> | [Hkey ->]]; [apply effect_none | apply effect_key_drawn; exact Hkey].
  - run_handler. destruct (users s !! id); apply effect_none.
  - destruct (update_user bind_text e req id s) as [r s'] eqn:Hu.
    apply update_user_cases in Hu. destruct r as [[body code] | ex]; simpl.
    + destruct Hu as [(_ & _ & ->) | (u & Hu & _ & [-> | (nm & ph & ad & ->)])];
        [apply effect_none | apply effect_none |].
      apply effect_user_patched. exact Hu.
    + subst. apply effect_none.
  - run_handler. destruct (users s !! id) eqn:Hu; simpl; [| apply effect_none].
    apply (effect_user_deleted _ _ s id). rewrite Hu. eauto.
  - destruct (upload_document _ _ _ _ e req id s) as [r s'] eqn:Hup.
    apply upload_document_cases in Hup. simpl.
    destruct Hup as [(_ & _ & ->) | [(_ & _ & _ & ->) | (file & dt & Hu & _ & _ & Hup)]];
      [apply effect_none | apply effect_none |].
    destruct Hup as [(_ & _ & ->) | (_ & _ & ->)].
    + apply effect_none.
    + apply effect_put. reflexivity.
  - apply effect_none.
  - rewrite delete_document_eq. destruct (documents s !! id); apply effect_none.
  - destruct (upload_face _ _ _ _ e req id s) as [r s'] eqn:Hup.
    apply upload_face_cases in Hup. simpl.
    destruct Hup as [(_ & _ & ->) | [(_ & _ & _ & ->) | (file & Hu & _ & Hup)]];
      [apply effect_none | apply effect_none |].
    destruct Hup as [(_ & _ & ->) | (_ & _ & ->)].
    + apply effect_none.
    + apply effect_put. reflexivity.
  - apply effect_none.
  - rewrite delete_face_eq. destruct (faces s !! id); apply effect_none.
Qed.

(** *** Invariants of the reachable states *)

Lemma reachable_invariant (P : state → Prop) :
  P init →
  (∀ (e : env) (s s' : state), P s → effect S3_BUCKET e s s' → P s') →
  ∀ s : state, reached s → P s.
Proof.
  intros Hinit Hstep s Hreach. induction Hreach as [| e rt req s Hreach IH].
  - exact Hinit.
  - apply (Hstep e s); [exact IH | apply serve_effect].
Qed.

Lemma lookup_insert_is_Some_lt {A : Type} (m : gmap Z A) (k i bound : Z) (x : A) :
  (∀ j : Z, is_Some (m !! j) → j < bound) → k < bound →
  is_Some (<[k := x]> m !! i) → i < bound.
Proof.
  intros Hm Hk. destruct (decide (k = i)) as [-> | Hne]; [auto |].
  rewrite lookup_insert_ne by exact Hne. apply Hm.
Qed.

Lemma lookup_delete_is_Some_lt {A : Type} (m : gmap Z A) (k i bound : Z) :
  (∀ j : Z, is_Some (m !! j) → j < bound) →
  is_Some (delete k m !! i) → i < bound.
Proof.
  intros Hm [x Hx]. apply lookup_delete_Some in Hx as [_ Hx]. apply Hm. eauto.
Qed.

(** The key generators run ahead of the keys: an INSERT never meets a row
    that already has its primary key. *)
Lemma reachable_keys_below_seq (s : state) : reached s → keys_below_seq s.
Proof.
  apply reachable_invariant.
  - repeat apply conj; intros i [x Hx]; simpl in Hx; rewrite lookup_empty in Hx;
      discriminate.
  - intros e s0 s' (Hu & Hd & Hf) Heff.
    destruct Heff as [| p Hp | Hkey | nm ph ad Hpk Hfree | id u nm ph ad Hid | id Hid];
      unfold keys_below_seq; simpl; repeat apply conj; try assumption.
    + intros i Hi. specialize (Hu i Hi). lia.
    + intros i. apply lookup_insert_is_Some_lt; [| lia].
      intros j Hj. specialize (Hu j Hj). lia.
    + intros i. apply lookup_insert_is_Some_lt; [exact Hu |]. apply Hu. rewrite Hid. eauto.
    + intros i. apply lookup_delete_is_Some_lt. exact Hu.
Qed.

Lemma reachable_seq_free (s : state) :
  reached s →
  users s !! users_seq s = None
  ∧ documents s !! documents_seq s = None
  ∧ faces s !! faces_seq s = None.
Proof.
  intros Hreach. destruct (reachable_keys_below_seq s Hreach) as (Hu & Hd & Hf).
  repeat split; apply eq_None_not_Some; intros Hsome;
    [apply Hu in Hsome | apply Hd in Hsome | apply Hf in Hsome]; lia.
Qed.

(** No route gets a Document or a Face row committed. *)
Lemma reachable_without_documents (s : state) :
  reached s → documents s = ∅ ∧ faces s = ∅.
Proof.
  revert s. apply (reachable_invariant (fun s => documents s = ∅ ∧ faces s = ∅)).
  - split; reflexivity.
  - intros e s0 s' Hs0 Heff. destruct Heff; simpl; exact Hs0.
Qed.


(** *** Creating a user *)

Lemma add_User_ok (e : env) (name phone aadhaar : value) (nm ph : string)
    (ad : option string) (s : state) :
  bind_text 120 name = Some (Some nm) →
  bind_text 15 phone = Some (Some ph) →
  bind_text 12 aadhaar = Some ad →
  aadhaar_taken ad None (users s) = false →
  users s !! users_seq s = None →
  add_User bind_text e name phone aadhaar s
  = (Ok (users_seq s),
     set_users (insert (users_seq s) (User.mk nm ph ad None None (Some (utcnow e)) None))
       Z.succ s).
Proof.
  intros Hn Hp Ha Hfree Hpk.
  unfold add_User, drawing_key, bind_not_null, bind_nullable, bind, ret, raise, gets, modify.
  rewrite Hn, Hp, Ha. cbv beta iota. rewrite Hfree, Hpk.
  rewrite bool_decide_false by (intros [x Hx]; discriminate). reflexivity.
Qed.

(** X3.  In a state the server has reached, a POST /users whose body is an
    object with a name and a phone the database accepts, and with no
    aadhaar or one that no row holds, is answered 201 with an id that no
    row had.  The row holds the three fields as bound, no email, no address,
    the clock reading as [created_at] and no [updated_at]; every other row,
    the other tables and the bucket are as before.  Nothing is asked of the
    names and phones of the rows already there: two users may share them. *)
Theorem create_user_succeeds (e : env) (req : request) (d : list (string * value))
    (name phone : value) (nm ph : string) (ad : option string) (s : state) :
  reached s →
  json req = Json (VDict d) →
  dict_lookup "name" d = Some name →
  dict_lookup "phone" d = Some phone →
  bind_text 120 name = Some (Some nm) →
  bind_text 15 phone = Some (Some ph) →
  bind_text 12 (default VNone (dict_lookup "aadhaar" d)) = Some ad →
  aadhaar_taken ad None (users s) = false →
  ∃ (id : Z) (s' : state),
    server e POST_users req s
    = ({| status_code := 201;
          get_json := Some (VDict [("status", VStr "success"); ("user_id", VInt id)]) |}, s')
    ∧ users s !! id = None
    ∧ users s' = <[id := User.mk nm ph ad None None (Some (utcnow e)) None]> (users s)
    ∧ documents s' = documents s
    ∧ faces s' = faces s
    ∧ bucket s' = bucket s.
Proof.
  intros Hreach Hjson Hname Hphone Hn Hp Ha Hfree.
  destruct (reachable_seq_free s Hreach) as (Hpk & _ & _).
  exists (users_seq s). eexists.
  unfold serve, dispatch, create_user, request_json. rewrite Hjson.
  unfold bind at 1. unfold ret at 1. unfold bind at 1. unfold lift at 1.
  simpl getitem at 1. rewrite Hname.
  unfold bind at 1. unfold lift at 1. simpl getitem at 1. rewrite Hphone.
  unfold bind at 1. unfold lift at 1. simpl dict_get at 1.
  unfold bind at 1. rewrite (add_User_ok e _ _ _ nm ph ad s Hn Hp Ha Hfree Hpk).
  unfold ret. split; [reflexivity |]. simpl. auto.
Qed.

(** X4.  What POST /users stored is what GET /users/{id} returns.  When the
    driver stores strings as they are and a registration with the strings
    [nm] and [ph] as name and phone is answered 201, the response carries an
    id that no row had, and a GET /users/{id} for it that comes next returns
    200 with that id, [nm], [ph], the aadhaar of the payload (null when the
    payload has none) and the clock reading of the registration as
    [created_at]. *)
Theorem create_then_get (e e' : env) (req req' : request) (d : list (string * value))
    (nm ph : string) (s s' : state) (r : response) :
  stores_verbatim bind_text →
  json req = Json (VDict d) →
  dict_lookup "name" d = Some (VStr nm) →
  dict_lookup "phone" d = Some (VStr ph) →
  server e POST_users req s = (r, s') →
  status_code r = 201 →
  ∃ (id : Z) (ad : option string),
    get_json r = Some (VDict [("status", VStr "success"); ("user_id", VInt id)])
    ∧ users s !! id = None
    ∧ field_after bind_text 12 None (dict_lookup "aadhaar" d) ad
    ∧ server e' (GET_user id) req' s'
      = ({| status_code := 200;
            get_json := Some (VDict [("id", VInt id); ("name", VStr nm); ("phone", VStr ph);
                                     ("aadhaar", str_or_none ad);
                                     ("created_at", VDateTime (utcnow e))]) |}, s').
Proof.
  intros [Hstr Hnone] Hjson Hname Hphone Hserve H201.
  unfold serve, dispatch in Hserve.
  destruct (create_user bind_text e req s) as [res s1] eqn:Hc.
  pose proof (create_user_spec bind_text e req _ s s1 res Hjson Hc) as Hspec.
  destruct res as [[body code] | ex].
  - destruct Hspec as (name & phone & aadhaar & id & Hn & Hp & Ha & Hadd & -> & ->).
    inversion Hserve; subst; clear Hserve.
    simpl in Hn, Hp, Ha. rewrite Hname in Hn. rewrite Hphone in Hp.
    inversion Hn; subst name. inversion Hp; subst phone. inversion Ha; subst aadhaar.
    apply add_User_cases in Hadd. simpl in Hadd.
    destruct Hadd as (nm' & ph' & ad & Hbn & Hbp & Hba & _ & -> & Hpk & ->).
    apply Hstr in Hbn. apply Hstr in Hbp. inversion Hbn; subst nm'. inversion Hbp; subst ph'.
    exists (users_seq s), ad. split; [reflexivity |]. split; [exact Hpk |]. split.
    + destruct (dict_lookup "aadhaar" d) as [v |] eqn:Hv; simpl in *.
      * destruct v; simpl; try exact Hba.
        -- apply Hnone in Hba. exact Hba.
        -- apply Hstr in Hba. exact Hba.
      * apply Hnone in Hba. exact Hba.
    + run_handler. rewrite lookup_insert_eq. reflexivity.
  - destruct Hspec as [_ Hint]. destruct ex; simpl in Hint; try contradiction;
      inversion Hserve; subst; discriminate.
Qed.

(** *** Uploading *)

(** X5.  An upload cannot outlive a storage failure.  For an existing user
    and a request with all its fields, when the object store refuses the
    put both upload routes are answered 500 without a JSON body and the
    state is exactly as before: no row is written for a file that was not
    stored. *)
Theorem upload_without_storage (e : env) (req : request) (id : Z) (u : User.t)
    (file : FileStorage) (s : state) :
  users s !! id = Some u →
  dict_lookup "file" (files req) = Some file →
  s3_up e = false →
  server e (POST_face id) req s = ({| status_code := 500; get_json := None |}, s)
  ∧ ∀ doc_type : string, dict_lookup "doc_type" (form req) = Some doc_type →
      server e (POST_documents id) req s = ({| status_code := 500; get_json := None |}, s).
Proof.
  intros Hu Hfile Hdown. split.
  - unfold serve, dispatch. rewrite (upload_face_eq e req id u file s Hu Hfile).
    rewrite Hdown. reflexivity.
  - intros doc_type Htype. unfold serve, dispatch.
    rewrite (upload_document_eq e req id u file doc_type s Hu Hfile Htype).
    rewrite Hdown. reflexivity.
Qed.


Lemma append_assoc (a b c : string) : (a +:+ b) +:+ c = a +:+ b +:+ c.
Proof.
  induction a as [| x a IH]; [reflexivity |].
  change (String x ((a +:+ b) +:+ c) = String x (a +:+ b +:+ c)).
  rewrite IH. reflexivity.
Qed.

Lemma same_tables_refl (s : state) : same_tables s s.
Proof. repeat split. Qed.

(** X7.  No document upload gets its row committed.  [Document.user_id]
    is declared with [ForeignKey('users.id')], and the User model, which
    has no [__tablename__], is mapped to the table [user]: the flush that
    would send the INSERT fails when it sorts the tables.  So no POST
    /users/{id}/documents is answered 201, and none changes a table or a
    key generator.  For an existing user and a request with both fields,
    at a moment the object store answers, the upload is answered 500
    without a JSON body, after the object was put under
    [documents/{id}/{doc_type}/{secure filename}]: the object stays in the
    bucket and no row points to it.  A state reached through the routes
    has no Document row. *)
Theorem upload_document_never_commits (e : env) (req : request) (id : Z) (s : state) :
  status_code (server e (POST_documents id) req s).1 ≠ 201
  ∧ same_tables s (server e (POST_documents id) req s).2
  ∧ (∀ (u : User.t) (file : FileStorage) (doc_type : string),
       users s !! id = Some u →
       dict_lookup "file" (files req) = Some file →
       dict_lookup "doc_type" (form req) = Some doc_type →
       s3_up e = true →
       server e (POST_documents id) req s
       = ({| status_code := 500; get_json := None |},
          add_put (object_put S3_BUCKET secure_filename (document_path id doc_type) file) s)
       ∧ put_key (object_put S3_BUCKET secure_filename (document_path id doc_type) file)
         = "documents/" +:+ pretty id +:+ "/" +:+ doc_type +:+ "/"
           +:+ secure_filename (filename file))
  ∧ (reached s → documents s = ∅).
Proof.
  split; [| split; [| split]].
  - unfold serve, dispatch.
    destruct (upload_document _ _ _ _ e req id s) as [r s'] eqn:Hup.
    apply upload_document_cases in Hup.
    destruct Hup as [(_ & -> & _) | [(_ & _ & -> & _) | (file & dt & _ & _ & _ & Hup)]];
      [discriminate | discriminate |].
    destruct Hup as [(_ & -> & _) | (_ & -> & _)]; discriminate.
  - rewrite serve_state. unfold dispatch.
    destruct (upload_document _ _ _ _ e req id s) as [r s'] eqn:Hup.
    apply upload_document_cases in Hup. simpl.
    destruct Hup as [(_ & _ & ->) | [(_ & _ & _ & ->) | (file & dt & _ & _ & _ & Hup)]];
      [apply same_tables_refl | apply same_tables_refl |].
    destruct Hup as [(_ & _ & ->) | (_ & _ & ->)]; repeat split.
  - intros u file doc_type Hu Hfile Htype Hup. split.
    + unfold serve, dispatch.
      rewrite (upload_document_eq e req id u file doc_type s Hu Hfile Htype). rewrite Hup.
      reflexivity.
    + unfold object_put, object_key, document_path. simpl put_key.
      rewrite !append_assoc. reflexivity.
  - intros Hreach. exact (proj1 (reachable_without_documents s Hreach)).
Qed.

(** X9.  The same for faces: [Face.user_id] has the same foreign key.  No
    POST /users/{id}/face is answered 201, and none changes a table or a
    key generator.  For an existing user and a request with its file, at a
    moment the object store answers, the upload is answered 500 without a
    JSON body, after the object was put under
    [faces/{id}/{secure filename}] with the content type of the file.  A
    state reached through the routes has no Face row, so that every
    listing of faces is the empty array. *)
Theorem upload_face_never_commits (e e' : env) (req req' : request) (id : Z) (s : state) :
  status_code (server e (POST_face id) req s).1 ≠ 201
  ∧ same_tables s (server e (POST_face id) req s).2
  ∧ (∀ (u : User.t) (file : FileStorage),
       users s !! id = Some u →
       dict_lookup "file" (files req) = Some file →
       s3_up e = true →
       server e (POST_face id) req s
       = ({| status_code := 500; get_json := None |},
          add_put {| put_bucket := S3_BUCKET;
                     put_key := "faces/" +:+ pretty id +:+ "/"
                                +:+ secure_filename (filename file);
                     put_body := stream file;
                     put_content_type := mimetype file |} s))
  ∧ (reached s →
     faces s = ∅
     ∧ server e' (GET_face id) req' s
       = ({| status_code := 200; get_json := Some (VList []) |}, s)).
Proof.
  split; [| split; [| split]].
  - unfold serve, dispatch.
    destruct (upload_face _ _ _ _ e req id s) as [r s'] eqn:Hup.
    apply upload_face_cases in Hup.
    destruct Hup as [(_ & -> & _) | [(_ & _ & -> & _) | (file & _ & _ & Hup)]];
      [discriminate | discriminate |].
    destruct Hup as [(_ & -> & _) | (_ & -> & _)]; discriminate.
  - rewrite serve_state. unfold dispatch.
    destruct (upload_face _ _ _ _ e req id s) as [r s'] eqn:Hup.
    apply upload_face_cases in Hup. simpl.
    destruct Hup as [(_ & _ & ->) | [(_ & _ & _ & ->) | (file & _ & _ & Hup)]];
      [apply same_tables_refl | apply same_tables_refl |].
    destruct Hup as [(_ & _ & ->) | (_ & _ & ->)]; repeat split.
  - intros u file Hu Hfile Hup. unfold serve, dispatch.
    rewrite (upload_face_eq e req id u file s Hu Hfile). rewrite Hup.
    unfold object_put, object_key, face_path. rewrite !append_assoc. reflexivity.
  - intros Hreach. destruct (reachable_without_documents s Hreach) as [_ Hf].
    split; [exact Hf |]. run_handler. rewrite Hf. reflexivity.
Qed.

(** *** Deleting *)

(** X10.  A Document or a Face row cannot be deleted through the routes.
    DELETE /documents/{doc_id} on an existing row is answered 500 without
    a JSON body and the state is exactly as before: the flush that would
    send the DELETE fails on the same foreign key when it sorts the
    tables.  The row is still there, so that the same request gives the
    same answer again.  DELETE /faces/{face_id} does the same on the Face
    table. *)
Theorem delete_of_a_row_fails (e e' : env) (req req' : request) (id : Z) (s : state) :
  (is_Some (documents s !! id) →
   server e (DELETE_document id) req s = ({| status_code := 500; get_json := None |}, s)
   ∧ server e' (DELETE_document id) req' (server e (DELETE_document id) req s).2
     = ({| status_code := 500; get_json := None |}, s))
  ∧ (is_Some (faces s !! id) →
     server e (DELETE_face id) req s = ({| status_code := 500; get_json := None |}, s)
     ∧ server e' (DELETE_face id) req' (server e (DELETE_face id) req s).2
       = ({| status_code := 500; get_json := None |}, s)).
Proof.
  split.
  - intros [d Hd].
    assert (H : ∀ (e0 : env) (req0 : request),
              server e0 (DELETE_document id) req0 s
              = ({| status_code := 500; get_json := None |}, s)).
    { intros e0 req0. unfold serve, dispatch. rewrite delete_document_eq, Hd. reflexivity. }
    split; [apply H |]. rewrite H. apply H.
  - intros [f Hf].
    assert (H : ∀ (e0 : env) (req0 : request),
              server e0 (DELETE_face id) req0 s
              = ({| status_code := 500; get_json := None |}, s)).
    { intros e0 req0. unfold serve, dispatch. rewrite delete_face_eq, Hf. reflexivity. }
    split; [apply H |]. rewrite H. apply H.
Qed.

(** X11.  After DELETE /users/{id} the id is gone for every route that
    resolves the user: GET, PUT and DELETE of the user and both uploads are
    answered 404.  The two listings do not resolve the user and answer the
    same as before the deletion: the rows of the deleted user are still
    listed. *)
Theorem deleted_user_is_gone (e e' : env) (req req' : request) (id : Z) (u : User.t)
    (s : state) :
  users s !! id = Some u →
  let s' := (server e (DELETE_user id) req s).2 in
  server e' (GET_user id) req' s' = (not_found "User", s')
  ∧ server e' (PUT_user id) req' s' = (not_found "User", s')
  ∧ server e' (DELETE_user id) req' s' = (not_found "User", s')
  ∧ server e' (POST_documents id) req' s' = (not_found "User", s')
  ∧ server e' (POST_face id) req' s' = (not_found "User", s')
  ∧ (server e' (GET_documents id) req' s').1 = (server e' (GET_documents id) req' s).1
  ∧ (server e' (GET_face id) req' s').1 = (server e' (GET_face id) req' s).1.
Proof.
  intros Hu s'.
  assert (Hs' : s' = set_users (delete id) (fun k => k) s).
  { unfold s'. run_handler. rewrite Hu. reflexivity. }
  assert (Hgone : users s' !! id = None).
  { rewrite Hs'. simpl. apply lookup_delete_eq. }
  repeat apply conj; try (run_handler; rewrite Hgone; reflexivity).
  - rewrite Hs'. reflexivity.
  - rewrite Hs'. reflexivity.
Qed.

(** *** What a request never does *)

Lemma same_rows_refl (s : state) : same_rows s s.
Proof. repeat split. Qed.



(** *** What the database refuses *)

Lemma internal_is_500 (ex : exn) (s : state) :
  internal ex →
  match ex with
  | HTTPException code => ({| status_code := code; get_json := None |}, s)
  | _ => ({| status_code := 500; get_json := None |}, s)
  end = ({| status_code := 500; get_json := None |}, s).
Proof. destruct ex; simpl; intros H; try reflexivity. destruct H. Qed.

(** X14.  The UNIQUE constraint also guards the update.  When the driver
    stores strings as they are, a PUT /users/{id} that sets the aadhaar to
    a value held by another row is answered 500 without a JSON body and
    nothing is changed, whatever else the payload contains. *)
Theorem update_to_held_aadhaar_fails (e : env) (req : request) (d : list (string * value))
    (id j : Z) (u v : User.t) (a : string) (s : state) :
  stores_verbatim bind_text →
  users s !! id = Some u →
  users s !! j = Some v →
  j ≠ id →
  User.aadhaar v = Some a →
  User.aadhaar u ≠ Some a →
  json req = Json (VDict d) →
  dict_lookup "aadhaar" d = Some (VStr a) →
  server e (PUT_user id) req s = ({| status_code := 500; get_json := None |}, s).
Proof.
  intros Hv Hu Hj Hne Hva Hua Hjson Hd. unfold serve, dispatch.
  destruct (update_user bind_text e req id s) as [r s'] eqn:Hupd.
  pose proof (update_user_spec bind_text e req _ id u s s' r Hv Hu Hjson Hupd) as Hspec.
  destruct r as [[body code] | ex].
  - exfalso. destruct Hspec as (_ & _ & Hc).
    pose proof (commit_User_spec bind_text _ _ _ _ _ _ _ _ _ Hv Hc) as Hspec.
    simpl in Hspec. rewrite Hd in Hspec.
    destruct Hspec as (u' & _ & _ & _ & _ & Ha & _ & _ & _ & _ & _ & Hfree).
    simpl in Ha.
    assert (Hchanged : changed (Some (VStr a)) (User.aadhaar u) = true).
    { simpl. destruct (User.aadhaar u) as [a' |]; [| reflexivity]. simpl.
      apply negb_true_iff. apply String.eqb_neq. congruence. }
    rewrite Hchanged in Hfree. rewrite orb_true_r in Hfree.
    specialize (Hfree eq_refl eq_refl). rewrite Ha in Hfree.
    rewrite (aadhaar_taken_true a (Some id) (users s) j v Hj Hva) in Hfree by congruence.
    discriminate.
  - destruct Hspec as [-> Hint]. apply internal_is_500. exact Hint.
Qed.

(** X15.  Name and phone cannot be null.  When the driver stores [None] as
    NULL wherever it accepts it, a POST /users whose body gives null for
    the name or for the phone is answered 500 without a JSON body and
    leaves every row and the bucket as they were, and a PUT /users/{id} on
    an existing user that does so is answered 500 without a JSON body and
    changes nothing: the NOT NULL columns refuse the row at the commit.
    Nothing else is asked of the driver. *)
Theorem null_name_or_phone_is_refused (e : env) (req : request) (d : list (string * value))
    (id : Z) (s : state) :
  stores_none_as_null bind_text →
  json req = Json (VDict d) →
  dict_lookup "name" d = Some VNone ∨ dict_lookup "phone" d = Some VNone →
  ((server e POST_users req s).1 = {| status_code := 500; get_json := None |}
   ∧ same_rows s (server e POST_users req s).2
   ∧ bucket (server e POST_users req s).2 = bucket s)
  ∧ ∀ u : User.t, users s !! id = Some u →
      server e (PUT_user id) req s = ({| status_code := 500; get_json := None |}, s).
Proof.
  intros Hnone Hjson Hnull. split.
  - unfold serve, dispatch.
    destruct (create_user bind_text e req s) as [r s'] eqn:Hc.
    pose proof (create_user_spec bind_text e req _ s s' r Hjson Hc) as Hspec.
    destruct r as [[body code] | ex].
    + exfalso. destruct Hspec as (name & phone & aadhaar & uid & Hn & Hp & _ & Hadd & _).
      apply add_User_cases in Hadd. simpl in Hadd.
      destruct Hadd as (nm & ph & ad & Hbn & Hbp & _).
      simpl in Hn, Hp.
      destruct Hnull as [Hnull | Hnull]; rewrite Hnull in *.
      * inversion Hn; subst name. apply Hnone in Hbn. discriminate.
      * inversion Hp; subst phone. apply Hnone in Hbp. discriminate.
    + destruct Hspec as [Hs' Hint].
      rewrite (internal_is_500 ex s' Hint). simpl.
      split; [reflexivity |]. destruct Hs' as [-> | [_ ->]]; repeat split.
  - intros u Hu. unfold serve, dispatch.
    destruct (update_user bind_text e req id s) as [r s'] eqn:Hupd.
    pose proof (update_user_commit bind_text e req _ id u s s' r Hu Hjson Hupd) as Hspec.
    destruct r as [[body code] | ex].
    + exfalso. destruct Hspec as (_ & _ & Hc).
      pose proof (commit_User_exact bind_text _ _ _ _ _ _ _ _ _ Hc) as Hspec.
      simpl in Hspec.
      destruct Hspec as (u' & _ & _ & Hp & Hn & _).
      destruct Hnull as [Hnull | Hnull]; rewrite Hnull in *; simpl in *.
      * apply Hnone in Hn. discriminate.
      * apply Hnone in Hp. discriminate.
    + destruct Hspec as [-> Hint]. apply internal_is_500. exact Hint.
Qed.

(** X16.  POST /users does not validate its body.  A JSON body that is not
    an object, or an object without [name] or without [phone], makes the
    handler raise ([TypeError], [KeyError]): the answer is a 500 without a
    JSON body, not a 400, and nothing is written.  A body that werkzeug
    cannot read as JSON is answered with werkzeug's own status. *)
Theorem create_user_does_not_validate (e : env) (req : request) (s : state) :
  (∀ data : value, json req = Json data →
     match data with
     | VDict d => dict_lookup "name" d = None ∨ dict_lookup "phone" d = None
     | _ => True
     end →
     server e POST_users req s = ({| status_code := 500; get_json := None |}, s))
  ∧ (∀ code : Z, json req = NotJson code →
       server e POST_users req s = ({| status_code := code; get_json := None |}, s)).
Proof.
  split.
  - intros data Hjson Hbad. unfold serve, dispatch, create_user, request_json.
    rewrite Hjson. unfold bind, ret, lift.
    destruct data as [| b | z | f | str | l | d | t]; try reflexivity.
    simpl. destruct Hbad as [Hbad | Hbad].
    + rewrite Hbad. reflexivity.
    + destruct (dict_lookup "name" d); [| reflexivity]. rewrite Hbad. reflexivity.
  - intros code Hjson. unfold serve, dispatch, create_user, request_json.
    rewrite Hjson. reflexivity.
Qed.

Lemma update_user_eq (e : env) (req : request) (data : value) (id : Z) (u : User.t)
    (s : state) :
  users s !! id = Some u →
  json req = Json data →
  update_user bind_text e req id s
  = (phone <- assigned data "phone" ;;
     name <- assigned data "name" ;;
     aadhaar <- assigned data "aadhaar" ;;
     commit_User bind_text e id u phone name aadhaar ;;;
     ret (VDict [("status", VStr "updated")], 200)) s.
Proof.
  intros Hu Hjson. unfold update_user, User_query_get, request_json.
  unfold bind at 1. unfold gets. rewrite Hu, Hjson. reflexivity.
Qed.

(** X17.  A PUT /users/{id} on an existing user whose JSON body is not an
    object changes nothing.  It is answered 500 when a test [k in data]
    raises (null, a boolean, a number) or succeeds and the subscript
    [data[k]] then raises (a string that contains "phone", "name" or
    "aadhaar", a list that has one of them as an element), and 200
    "updated" otherwise. *)
Theorem update_with_non_object_body (e : env) (req : request) (data : value) (id : Z)
    (u : User.t) (s : state) :
  users s !! id = Some u →
  json req = Json data →
  (∀ d : list (string * value), data ≠ VDict d) →
  (server e (PUT_user id) req s).2 = s
  ∧ ((server e (PUT_user id) req s).1 = {| status_code := 500; get_json := None |}
     ∨ (server e (PUT_user id) req s).1
       = {| status_code := 200; get_json := Some (VDict [("status", VStr "updated")]) |})
  ∧ ((contains data "phone" = Ok false ∧ contains data "name" = Ok false
      ∧ contains data "aadhaar" = Ok false) ↔
     status_code (server e (PUT_user id) req s).1 = 200).
Proof.
  intros Hu Hjson Hnot. unfold serve, dispatch.
  rewrite (update_user_eq e req data id u s Hu Hjson).
  unfold assigned, commit_User, bind, ret, lift.
  destruct data as [| b | z | f | str | l | d | t]; simpl;
    try (split; [reflexivity |]; split; [left; reflexivity |];
         split; [intros (H & _); discriminate | discriminate]).
  - destruct (str_contains "phone" str); simpl;
      [split; [reflexivity |]; split; [left; reflexivity |];
       split; [intros (H & _); discriminate | discriminate] |].
    destruct (str_contains "name" str); simpl;
      [split; [reflexivity |]; split; [left; reflexivity |];
       split; [intros (_ & H & _); discriminate | discriminate] |].
    destruct (str_contains "aadhaar" str); simpl;
      [split; [reflexivity |]; split; [left; reflexivity |];
       split; [intros (_ & _ & H); discriminate | discriminate] |].
    split; [reflexivity |]. split; [right; reflexivity |]. split; auto.
  - destruct (existsb _ l); simpl;
      [split; [reflexivity |]; split; [left; reflexivity |];
       split; [intros (H & _); discriminate | discriminate] |].
    destruct (existsb _ l); simpl;
      [split; [reflexivity |]; split; [left; reflexivity |];
       split; [intros (_ & H & _); discriminate | discriminate] |].
    destruct (existsb _ l); simpl;
      [split; [reflexivity |]; split; [left; reflexivity |];
       split; [intros (_ & _ & H); discriminate | discriminate] |].
    split; [reflexivity |]. split; [right; reflexivity |]. split; auto.
  - destruct (Hnot d eq_refl).
Qed.

(** *** The public URL *)

Lemma append_cons (c : Ascii.ascii) (a b : string) : String c a +:+ b = String c (a +:+ b).
Proof. reflexivity. Qed.

Lemma replace_from_cons (old new : string) (c : Ascii.ascii) (t : string) :
  replace_from old new O (String c t)
  = if String.prefix old (String c t)
    then new +:+ replace_from old new (Nat.pred (String.length old)) t
    else String c (replace_from old new O t).
Proof. reflexivity. Qed.

Lemma str_contains_cons (sub : string) (c : Ascii.ascii) (t : string) :
  str_contains sub (String c t) = String.prefix sub (String c t) || str_contains sub t.
Proof. reflexivity. Qed.

Lemma prefix_cons (a b : Ascii.ascii) (s1 s2 : string) :
  String.prefix (String a s1) (String b s2)
  = if Ascii.eqb a b then String.prefix s1 s2 else false.
Proof.
  change (String.prefix (String a s1) (String b s2))
    with (match Ascii.ascii_dec a b with
          | left _ => String.prefix s1 s2
          | right _ => false
          end).
  destruct (Ascii.ascii_dec a b) as [Heq | Hne]; destruct (Ascii.eqb_spec a b);
    congruence.
Qed.

Lemma prefix_nil (t : string) : String.prefix EmptyString t = true.
Proof. destruct t; reflexivity. Qed.

(** An occurrence of [/s3] cannot straddle the end of [q] and a [/s3]
    appended to it. *)
Lemma prefix_s3_app (q : string) :
  q ≠ EmptyString → String.prefix "/s3" (q +:+ "/s3") = String.prefix "/s3" q.
Proof.
  intros Hq. destruct q as [| c0 [| c1 [| c2 q]]]; [destruct (Hq eq_refl) | | |];
    rewrite ?append_cons.
  - change (EmptyString +:+ "/s3") with "/s3". rewrite !prefix_cons.
    destruct (Ascii.eqb _ c0); reflexivity.
  - change (EmptyString +:+ "/s3") with "/s3". rewrite !prefix_cons.
    destruct (Ascii.eqb _ c0); [| reflexivity].
    destruct (Ascii.eqb _ c1); reflexivity.
  - rewrite !prefix_cons, !prefix_nil. reflexivity.
Qed.

Lemma replace_without_occurrence (t : string) :
  str_contains "/s3" t = false → replace t "/s3" "" = t.
Proof.
  change (replace t "/s3" "") with (replace_from "/s3" "" O t).
  induction t as [| c t IH]; [reflexivity |].
  rewrite str_contains_cons. intros H. apply orb_false_iff in H as [Hp Ht].
  rewrite replace_from_cons, Hp. rewrite (IH Ht). reflexivity.
Qed.

Lemma replace_trailing_occurrence (p : string) :
  str_contains "/s3" p = false → replace (p +:+ "/s3") "/s3" "" = p.
Proof.
  change (replace (p +:+ "/s3") "/s3" "") with (replace_from "/s3" "" O (p +:+ "/s3")).
  induction p as [| c p IH]; [reflexivity |].
  rewrite str_contains_cons. intros H. apply orb_false_iff in H as [Hp Ht].
  rewrite append_cons, replace_from_cons.
  rewrite <- append_cons. rewrite prefix_s3_app by discriminate. rewrite Hp.
  rewrite (IH Ht). reflexivity.
Qed.

Lemma strip_suffix_cons (suffix : string) (c : Ascii.ascii) (t : string) :
  strip_suffix suffix (String c t)
  = if String.eqb (String c t) suffix then EmptyString
    else String c (strip_suffix suffix t).
Proof. reflexivity. Qed.

Lemma strip_suffix_cases (t : string) :
  t = strip_suffix "/s3" t +:+ "/s3" ∨ strip_suffix "/s3" t = t.
Proof.
  induction t as [| c t IH]; [right; reflexivity |].
  rewrite strip_suffix_cons. destruct (String.eqb_spec (String c t) "/s3") as [Heq | Hne].
  - left. exact Heq.
  - destruct IH as [IH | IH].
    + left. rewrite append_cons. rewrite <- IH. reflexivity.
    + right. rewrite IH. reflexivity.
Qed.

(** X18.  On an endpoint in which [/s3] occurs at most once, as its
    trailing path suffix, the helper does what is asked of it: [replace]
    strips that suffix and nothing else, the object is put in the
    configured bucket under [path/secure_filename(f)] with the content type
    of the file, and the URL returned is the stripped endpoint followed by
    [/object/public/{bucket}/{path}/{secure_filename(f)}]. *)
Theorem upload_url_on_plain_endpoint (e : env) (file : FileStorage) (path : string)
    (s : state) :
  str_contains "/s3" (strip_suffix "/s3" S3_ENDPOINT) = false →
  s3_up e = true →
  replace S3_ENDPOINT "/s3" "" = strip_suffix "/s3" S3_ENDPOINT
  ∧ upload_to_supabase S3_ENDPOINT S3_BUCKET secure_filename e file path s
    = (Ok (strip_suffix "/s3" S3_ENDPOINT +:+ "/object/public/" +:+ S3_BUCKET +:+ "/"
           +:+ path +:+ "/" +:+ secure_filename (filename file)),
       add_put {| put_bucket := S3_BUCKET;
                  put_key := path +:+ "/" +:+ secure_filename (filename file);
                  put_body := stream file;
                  put_content_type := mimetype file |} s).
Proof.
  intros Hplain Hup.
  assert (Hbase : replace S3_ENDPOINT "/s3" "" = strip_suffix "/s3" S3_ENDPOINT).
  { destruct (strip_suffix_cases S3_ENDPOINT) as [Hcase | Hcase].
    - rewrite Hcase at 1. apply replace_trailing_occurrence. exact Hplain.
    - rewrite Hcase in *. apply replace_without_occurrence. exact Hplain. }
  split; [exact Hbase |].
  rewrite upload_to_supabase_eq, Hup. unfold public_url, object_put, object_key.
  rewrite Hbase. reflexivity.
Qed.

(** *** Repeating an update *)





(** *** The shape of the responses *)

(** X21.  A response has one of three shapes.  For every route, request
    and state, the response either carries a JSON body with status 200 or
    201, or carries the body [{"error": msg}] with status 400 or 404 and
    the state untouched, or carries no JSON body at all: then an
    exception left the handler and the rows of the three tables are
    untouched. *)
Theorem responses_have_three_shapes (e : env) (rt : route) (req : request) (s : state) :
  match get_json (server e rt req s).1 with
  | Some body =>
      status_code (server e rt req s).1 = 200
      ∨ status_code (server e rt req s).1 = 201
      ∨ ((status_code (server e rt req s).1 = 400 ∨ status_code (server e rt req s).1 = 404)
         ∧ (∃ msg : string, body = VDict [("error", VStr msg)])
         ∧ (server e rt req s).2 = s)
  | None => same_rows s (server e rt req s).2
  end.
Proof.
  unfold serve.
  destruct rt as [| | id | id | id | id | id | id | id | id | id]; simpl.
  - left. reflexivity.
  - destruct (create_user bind_text e req s) as [r s'] eqn:Hc.
    apply create_user_cases in Hc. destruct r as [[body code] | ex].
    + destruct Hc as (data & name & phone & aadhaar & _ & _ & _ & _ & _ & _ & ->).
      simpl. auto.
    + assert (Hs' : same_rows s s') by (destruct Hc as [-> | [_ ->]]; repeat split).
      destruct ex; exact Hs'.
  - run_handler. destruct (users s !! id); simpl; [left; reflexivity |].
    right. right. eauto.
  - destruct (users s !! id) as [u |] eqn:Hid.
    + destruct (update_user bind_text e req id s) as [r s'] eqn:Hu.
      apply update_user_cases in Hu. destruct r as [[body code] | ex].
      * destruct Hu as [(Hnone & _) | (u' & _ & -> & _)]; [congruence |].
        simpl. left. reflexivity.
      * subst. destruct ex; apply same_rows_refl.
    + unfold update_user, User_query_get, bind, gets. rewrite Hid. simpl.
      right. right. eauto.
  - run_handler. destruct (users s !! id); simpl; [left; reflexivity |].
    right. right. eauto.
  - destruct (upload_document _ _ _ _ e req id s) as [r s'] eqn:Hup.
    apply upload_document_cases in Hup.
    destruct Hup as [(_ & -> & ->) | [(_ & _ & -> & ->) | (file & dt & _ & _ & _ & Hup)]];
      [simpl; right; right; eauto | simpl; right; right; eauto |].
    destruct Hup as [(_ & -> & ->) | (_ & -> & ->)]; repeat split.
  - left. reflexivity.
  - rewrite delete_document_eq. destruct (documents s !! id); simpl;
      [apply same_rows_refl |]. right. right. eauto.
  - destruct (upload_face _ _ _ _ e req id s) as [r s'] eqn:Hup.
    apply upload_face_cases in Hup.
    destruct Hup as [(_ & -> & ->) | [(_ & _ & -> & ->) | (file & _ & _ & Hup)]];
      [simpl; right; right; eauto | simpl; right; right; eauto |].
    destruct Hup as [(_ & -> & ->) | (_ & -> & ->)]; repeat split.
  - left. reflexivity.
  - rewrite delete_face_eq. destruct (faces s !! id); simpl;
      [apply same_rows_refl |]. right. right. eauto.
Qed.

End Coverage.

(** * The further properties at concrete requests *)


(** A second user is registered at time 105. *)
Lemma create_user_succeeds_witness :
  reachable "https://ref.supabase.co/storage/v1/s3" "kyc" (fun f => f) verbatim_text ex_state1
  ∧ aadhaar_taken (Some "555566667777") None (users ex_state1) = false
  ∧ ∃ (id : Z) (s' : state),
      ex_server (at_time 105) POST_users ex_second_user ex_state1
      = ({| status_code := 201;
            get_json := Some (VDict [("status", VStr "success"); ("user_id", VInt id)]) |}, s')
      ∧ users ex_state1 !! id = None
      ∧ users s' = <[id := ex_user2]> (users ex_state1).
Proof.
  assert (Hr : reachable "https://ref.supabase.co/storage/v1/s3" "kyc" (fun f => f)
                 verbatim_text ex_state1) by served.
  split; [exact Hr |]. split; [reflexivity |].
  destruct (create_user_succeeds
              "https://ref.supabase.co/storage/v1/s3" "kyc" (fun f => f) verbatim_text
              (at_time 105) ex_second_user
              [("name", VStr "Ravi"); ("phone", VStr "9111111111");
               ("aadhaar", VStr "555566667777")]
              (VStr "Ravi") (VStr "9111111111") "Ravi" "9111111111" (Some "555566667777")
              ex_state1 Hr eq_refl eq_refl eq_refl eq_refl eq_refl eq_refl eq_refl)
    as (id & s' & Hserve & Hfresh & Husers & _).
  exists id, s'. split; [exact Hserve |]. split; [exact Hfresh | exact Husers].
Defined.

(** The second user is read back at time 200. *)
Lemma create_then_get_witness :
  stores_verbatim verbatim_text
  ∧ status_code (ex_server (at_time 105) POST_users ex_second_user ex_state1).1 = 201
  ∧ ∃ id : Z,
      get_json (ex_server (at_time 105) POST_users ex_second_user ex_state1).1
      = Some (VDict [("status", VStr "success"); ("user_id", VInt id)])
      ∧ ex_server (at_time 200) (GET_user id) no_body ex_state4
        = ({| status_code := 200;
              get_json := Some (VDict [("id", VInt id); ("name", VStr "Ravi");
                                       ("phone", VStr "9111111111");
                                       ("aadhaar", VStr "555566667777");
                                       ("created_at", VDateTime 105)]) |}, ex_state4).
Proof.
  assert (Hv : stores_verbatim verbatim_text) by verbatim_binder.
  split; [exact Hv |]. split; [reflexivity |].
  destruct (create_then_get
              "https://ref.supabase.co/storage/v1/s3" "kyc" (fun f => f) verbatim_text
              (at_time 105) (at_time 200) ex_second_user no_body
              [("name", VStr "Ravi"); ("phone", VStr "9111111111");
               ("aadhaar", VStr "555566667777")]
              "Ravi" "9111111111" ex_state1 ex_state4
              (ex_server (at_time 105) POST_users ex_second_user ex_state1).1
              Hv eq_refl eq_refl eq_refl eq_refl eq_refl)
    as (id & ad & Hbody & _ & Had & Hget).
  simpl in Had. subst ad. exists id. split; [exact Hbody | exact Hget].
Defined.

(** An upload for user 1 while the object store is down. *)
Lemma upload_without_storage_witness :
  users ex_state1 !! 1 = Some ex_user
  ∧ dict_lookup "file" (files ex_upload) = Some photo
  ∧ dict_lookup "doc_type" (form ex_upload) = Some "pan"
  ∧ ex_server (storage_down 120) (POST_face 1) ex_upload ex_state1
    = ({| status_code := 500; get_json := None |}, ex_state1)
  ∧ ex_server (storage_down 120) (POST_documents 1) ex_upload ex_state1
    = ({| status_code := 500; get_json := None |}, ex_state1).
Proof.
  do 3 (split; [reflexivity |]).
  destruct (upload_without_storage
              "https://ref.supabase.co/storage/v1/s3" "kyc" (fun f => f) verbatim_text
              (storage_down 120) ex_upload 1 ex_user photo ex_state1
              eq_refl eq_refl eq_refl) as [Hface Hdoc].
  split; [exact Hface | exact (Hdoc "pan" eq_refl)].
Defined.


(** The upload of the PAN card of user 1 at time 110. *)
Lemma upload_document_never_commits_witness :
  reachable "https://ref.supabase.co/storage/v1/s3" "kyc" (fun f => f) verbatim_text ex_state1
  ∧ users ex_state1 !! 1 = Some ex_user
  ∧ ex_server (at_time 110) (POST_documents 1) ex_upload ex_state1
    = ({| status_code := 500; get_json := None |},
       add_put {| put_bucket := "kyc"; put_key := "documents/1/pan/id.png";
                  put_body := "PNG"; put_content_type := "image/png" |} ex_state1)
  ∧ documents ex_state1 = ∅.
Proof.
  assert (Hr : reachable "https://ref.supabase.co/storage/v1/s3" "kyc" (fun f => f)
                 verbatim_text ex_state1) by served.
  split; [exact Hr |]. split; [reflexivity |].
  destruct (upload_document_never_commits
              "https://ref.supabase.co/storage/v1/s3" "kyc" (fun f => f) verbatim_text
              (at_time 110) ex_upload 1 ex_state1)
    as (_ & _ & Hup & Hnone).
  destruct (Hup ex_user photo "pan" eq_refl eq_refl eq_refl eq_refl) as [Hserve _].
  split; [exact Hserve | exact (Hnone Hr)].
Defined.

(** A face of user 1 is uploaded at time 115; the listing stays empty. *)
Lemma upload_face_never_commits_witness :
  reachable "https://ref.supabase.co/storage/v1/s3" "kyc" (fun f => f) verbatim_text ex_state1
  ∧ users ex_state1 !! 1 = Some ex_user
  ∧ ex_server (at_time 115) (POST_face 1) ex_upload_no_type ex_state1
    = ({| status_code := 500; get_json := None |},
       add_put {| put_bucket := "kyc"; put_key := "faces/1/id.png";
                  put_body := "PNG"; put_content_type := "image/png" |} ex_state1)
  ∧ ex_server (at_time 130) (GET_face 1) no_body ex_state1
    = ({| status_code := 200; get_json := Some (VList []) |}, ex_state1).
Proof.
  assert (Hr : reachable "https://ref.supabase.co/storage/v1/s3" "kyc" (fun f => f)
                 verbatim_text ex_state1) by served.
  split; [exact Hr |]. split; [reflexivity |].
  destruct (upload_face_never_commits
              "https://ref.supabase.co/storage/v1/s3" "kyc" (fun f => f) verbatim_text
              (at_time 115) (at_time 130) ex_upload_no_type no_body 1 ex_state1)
    as (_ & _ & Hup & Hlist).
  split; [exact (Hup ex_user photo eq_refl eq_refl eq_refl) |].
  exact (proj2 (Hlist Hr)).
Defined.

(** A DELETE of document 1, which a database holds. *)
Lemma delete_of_a_row_fails_witness :
  documents ex_state2 !! 1 = Some ex_document
  ∧ ex_server (at_time 140) (DELETE_document 1) no_body ex_state2
    = ({| status_code := 500; get_json := None |}, ex_state2)
  ∧ documents (ex_server (at_time 140) (DELETE_document 1) no_body ex_state2).2 !! 1
    = Some ex_document.
Proof.
  split; [reflexivity |].
  destruct (proj1 (delete_of_a_row_fails
                     "https://ref.supabase.co/storage/v1/s3" "kyc" (fun f => f) verbatim_text
                     (at_time 140) (at_time 150) no_body no_body 1 ex_state2))
    as [Hserve _].
  { exists ex_document. reflexivity. }
  unfold ex_server. rewrite Hserve. split; reflexivity.
Defined.

(** User 1 is deleted while document 1 refers to it. *)
Lemma deleted_user_is_gone_witness :
  users ex_state2 !! 1 = Some ex_user
  ∧ (ex_server (at_time 150) (GET_user 1) no_body
       (ex_server (at_time 140) (DELETE_user 1) no_body ex_state2).2).1
    = not_found "User"
  ∧ (ex_server (at_time 150) (POST_documents 1) ex_upload
       (ex_server (at_time 140) (DELETE_user 1) no_body ex_state2).2).1
    = not_found "User"
  ∧ (ex_server (at_time 150) (GET_documents 1) no_body
       (ex_server (at_time 140) (DELETE_user 1) no_body ex_state2).2).1
    = (ex_server (at_time 150) (GET_documents 1) no_body ex_state2).1.
Proof.
  split; [reflexivity |].
  pose proof (deleted_user_is_gone
                "https://ref.supabase.co/storage/v1/s3" "kyc" (fun f => f) verbatim_text
                (at_time 140) (at_time 150) no_body no_body 1 ex_user ex_state2 eq_refl)
    as (Hget & _ & _ & _ & _ & Hlist & _).
  pose proof (deleted_user_is_gone
                "https://ref.supabase.co/storage/v1/s3" "kyc" (fun f => f) verbatim_text
                (at_time 140) (at_time 150) no_body ex_upload 1 ex_user ex_state2 eq_refl)
    as (_ & _ & _ & Hpost & _).
  cbv zeta in Hget, Hpost, Hlist. unfold ex_server.
  rewrite Hget, Hpost. split; [reflexivity |]. split; [reflexivity | exact Hlist].
Defined.


(** User 2 tries to take the aadhaar of user 1. *)
Lemma update_to_held_aadhaar_fails_witness :
  stores_verbatim verbatim_text
  ∧ users ex_state4 !! 2 = Some ex_user2
  ∧ users ex_state4 !! 1 = Some ex_user
  ∧ ex_server (at_time 160) (PUT_user 2) ex_take_aadhaar ex_state4
    = ({| status_code := 500; get_json := None |}, ex_state4).
Proof.
  assert (Hv : stores_verbatim verbatim_text) by verbatim_binder.
  split; [exact Hv |]. do 2 (split; [reflexivity |]).
  apply (update_to_held_aadhaar_fails
           "https://ref.supabase.co/storage/v1/s3" "kyc" (fun f => f) verbatim_text
           (at_time 160) ex_take_aadhaar [("aadhaar", VStr "123412341234")]
           2 1 ex_user2 ex_user "123412341234" ex_state4 Hv eq_refl eq_refl);
    [lia | reflexivity | discriminate | reflexivity | reflexivity].
Defined.

(** A registration, and a patch of user 1, with a null name. *)
Lemma null_name_or_phone_is_refused_witness :
  stores_none_as_null verbatim_text
  ∧ dict_lookup "name" [("name", VNone); ("phone", VStr "9111111111")] = Some VNone
  ∧ users ex_state1 !! 1 = Some ex_user
  ∧ (ex_server (at_time 160) POST_users ex_null_name ex_state1).1
    = {| status_code := 500; get_json := None |}
  ∧ users (ex_server (at_time 160) POST_users ex_null_name ex_state1).2 = users ex_state1
  ∧ ex_server (at_time 160) (PUT_user 1) ex_null_name ex_state1
    = ({| status_code := 500; get_json := None |}, ex_state1).
Proof.
  assert (Hnone : stores_none_as_null verbatim_text).
  { intros n c. simpl. congruence. }
  split; [exact Hnone |]. do 2 (split; [reflexivity |]).
  destruct (null_name_or_phone_is_refused
              "https://ref.supabase.co/storage/v1/s3" "kyc" (fun f => f) verbatim_text
              (at_time 160) ex_null_name [("name", VNone); ("phone", VStr "9111111111")]
              1 ex_state1 Hnone eq_refl (or_introl eq_refl)) as [(Hpost & Hrows & _) Hput].
  split; [exact Hpost |]. split; [exact (proj1 Hrows) | exact (Hput ex_user eq_refl)].
Defined.

(** A registration without a name, and one whose body is not JSON. *)
Lemma create_user_does_not_validate_witness :
  dict_lookup "name" [("phone", VStr "9111111111")] = None
  ∧ ex_server (at_time 160) POST_users ex_nameless ex_state1
    = ({| status_code := 500; get_json := None |}, ex_state1)
  ∧ ex_server (at_time 160) POST_users no_body ex_state1
    = ({| status_code := 415; get_json := None |}, ex_state1).
Proof.
  split; [reflexivity |]. split.
  - apply (proj1 (create_user_does_not_validate
                    "https://ref.supabase.co/storage/v1/s3" "kyc" (fun f => f) verbatim_text
                    (at_time 160) ex_nameless ex_state1)
             (VDict [("phone", VStr "9111111111")]) eq_refl).
    left. reflexivity.
  - apply (proj2 (create_user_does_not_validate
                    "https://ref.supabase.co/storage/v1/s3" "kyc" (fun f => f) verbatim_text
                    (at_time 160) no_body ex_state1) 415 eq_refl).
Defined.

(** A PUT whose body is the JSON string "my phone", and one whose body is
    the empty list. *)
Lemma update_with_non_object_body_witness :
  users ex_state1 !! 1 = Some ex_user
  ∧ (ex_server (at_time 160) (PUT_user 1) (json_request (VStr "my phone")) ex_state1).2
    = ex_state1
  ∧ status_code
      (ex_server (at_time 160) (PUT_user 1) (json_request (VStr "my phone")) ex_state1).1
    ≠ 200
  ∧ status_code
      (ex_server (at_time 160) (PUT_user 1) (json_request (VList [])) ex_state1).1
    = 200.
Proof.
  split; [reflexivity |].
  destruct (update_with_non_object_body
              "https://ref.supabase.co/storage/v1/s3" "kyc" (fun f => f) verbatim_text
              (at_time 160) (json_request (VStr "my phone")) (VStr "my phone") 1 ex_user
              ex_state1 eq_refl eq_refl) as (Hsame & _ & Hiff); [discriminate |].
  destruct (update_with_non_object_body
              "https://ref.supabase.co/storage/v1/s3" "kyc" (fun f => f) verbatim_text
              (at_time 160) (json_request (VList [])) (VList []) 1 ex_user
              ex_state1 eq_refl eq_refl) as (_ & _ & Hiff'); [discriminate |].
  split; [exact Hsame |]. split.
  - intros H200. apply Hiff in H200 as [Hphone _]. vm_compute in Hphone. discriminate.
  - apply Hiff'. repeat split.
Defined.

(** The helper on the Supabase endpoint of the examples. *)
Lemma upload_url_on_plain_endpoint_witness :
  str_contains "/s3" (strip_suffix "/s3" "https://ref.supabase.co/storage/v1/s3") = false
  ∧ replace "https://ref.supabase.co/storage/v1/s3" "/s3" ""
    = "https://ref.supabase.co/storage/v1"
  ∧ (upload_to_supabase "https://ref.supabase.co/storage/v1/s3" "kyc" (fun f => f)
       (at_time 0) photo "faces/1" init).1
    = Ok "https://ref.supabase.co/storage/v1/object/public/kyc/faces/1/id.png".
Proof.
  split; [reflexivity |].
  destruct (upload_url_on_plain_endpoint
              "https://ref.supabase.co/storage/v1/s3" "kyc" (fun f => f)
              (at_time 0) photo "faces/1" init eq_refl eq_refl) as [Hbase Hup].
  split; [exact Hbase |]. rewrite Hup. reflexivity.
Defined.

